(** * Ensemble: filtered activity (spinnaker_components/ensemble/filtered_activity.c)

    A shallow embedding of the filter bank of the ensemble executable:
    [filtered_activity_initialise] reads the filter count and the filter
    parameters from a configuration region and allocates one zeroed vector of
    [value_t] per filter; [filtered_activity_step] multiplies every entry of
    every vector by the [filter] coefficient of its filter.

    The C code works on three globals, on heap blocks obtained from the
    platform allocator and on a read-only configuration region.  The model
    keeps exactly that: a machine state with the three globals, a heap of
    blocks addressed through (possibly null) pointers, the outcomes the
    allocator will give, and the log of what was printed and allocated.  An
    access through a null pointer, outside a block, or to a cell that does not
    hold a value of the expected kind has no defined behaviour in C; the model
    returns [Undefined] there. *)

From Stdlib Require Import ZArith List Lia.
From stdpp Require Import base option list.

Open Scope Z_scope.

(** ** Machine integers *)

(** [uint32_t] and [size_t] arithmetic of the 32-bit target wraps modulo 2^32. *)
Definition wrap32 (z : Z) : Z := z mod 2 ^ 32.

(** Modelled from the spec: nengo-common.h and filtered_activity.h are missing.
    [value_t] is one 32-bit fixed-point word, a pointer is one 32-bit word, and
    [activity_filter_parameters_t] is a record of two [value_t] fields, the
    decay [filter] first and its companion [n_filter] second, with no padding. *)
Definition sizeof_value_t : Z := 4.
Definition sizeof_value_ptr : Z := 4.
Definition sizeof_activity_filter_parameters_t : Z := 8.

Record activity_filter_parameters_t := FilterParameters {
  filter : Z;
  n_filter : Z
}.

(** Word offsets of the two fields of record [f] inside the parameter array. *)
Definition filter_offset (f : nat) : nat := (2 * f)%nat.
Definition n_filter_offset (f : nat) : nat := (2 * f + 1)%nat.

(** ** Memory *)

(** A pointer is null or the base of a heap block; every pointer of this
    program is a block base, indexed by words. *)
Abbreviation ptr := (option nat).
Abbreviation NULL := (@None nat).

(** A cell of memory is one 32-bit word: not yet written, an integer or
    fixed-point word, or a pointer. *)
Inductive mval : Type :=
  | Vundef
  | Vword (w : Z)
  | Vptr (p : ptr).

(** What the program does to the outside: the two diagnostic lines of
    [io_printf] and the requests to the allocator with their results. *)
Inductive event : Type :=
  | EvNumFilters (num_filters : Z)
  | EvFilter (f : nat) (filter_value n_filter_value : Z)
  | EvMalloc (bytes : Z) (result : ptr).

(** The heap is the sequence of blocks allocated so far; block [b] is the
    [b]-th allocation and nothing is ever freed.  [future] lists the outcomes
    of the coming allocation requests ([true]: the request succeeds); when it
    is exhausted every request fails.  [trace] is the log, latest first. *)
Record machine : Type := Machine {
  g_num_activity_filters : Z;
  g_filtered_activities : ptr;
  g_activity_filter_params : ptr;
  mem : list (list mval);
  future : list bool;
  trace : list event
}.

(** The state at program start: the initialisers of the three globals
    (lines 26-28) and an empty heap. *)
Definition boot (fut : list bool) : machine :=
  Machine 0 NULL NULL [] fut [].

Definition set_num (n : Z) (s : machine) : machine :=
  Machine n (g_filtered_activities s) (g_activity_filter_params s)
          (mem s) (future s) (trace s).
Definition set_activities (p : ptr) (s : machine) : machine :=
  Machine (g_num_activity_filters s) p (g_activity_filter_params s)
          (mem s) (future s) (trace s).
Definition set_params (p : ptr) (s : machine) : machine :=
  Machine (g_num_activity_filters s) (g_filtered_activities s) p
          (mem s) (future s) (trace s).
Definition set_mem (m : list (list mval)) (s : machine) : machine :=
  Machine (g_num_activity_filters s) (g_filtered_activities s)
          (g_activity_filter_params s) m (future s) (trace s).
Definition log (e : event) (s : machine) : machine :=
  Machine (g_num_activity_filters s) (g_filtered_activities s)
          (g_activity_filter_params s) (mem s) (future s) (e :: trace s).

(** ** Reading memory *)

Definition read_cell (s : machine) (p : ptr) (i : nat) : option mval :=
  match p with
  | None => None
  | Some b =>
      match mem s !! b with
      | Some cells => cells !! i
      | None => None
      end
  end.

Definition read_word (s : machine) (p : ptr) (i : nat) : option Z :=
  match read_cell s p i with
  | Some (Vword w) => Some w
  | _ => None
  end.

Definition read_ptr (s : machine) (p : ptr) (i : nat) : option ptr :=
  match read_cell s p i with
  | Some (Vptr q) => Some q
  | _ => None
  end.

(** [g_filtered_activities[f][n]] *)
Definition state_at (s : machine) (f n : nat) : option Z :=
  match read_ptr s (g_filtered_activities s) f with
  | Some row => read_word s row n
  | None => None
  end.

(** [g_activity_filter_params[f]] *)
Definition params_at (s : machine) (f : nat) : option activity_filter_parameters_t :=
  match read_word s (g_activity_filter_params s) (filter_offset f),
        read_word s (g_activity_filter_params s) (n_filter_offset f) with
  | Some d, Some nd => Some (FilterParameters d nd)
  | _, _ => None
  end.

(** ** Computations on the machine *)

Inductive outcome (A : Type) : Type :=
  | Undefined
  | Done (a : A) (s : machine).
Arguments Undefined {A}.
Arguments Done {A} a s.

Definition M (A : Type) : Type := machine -> outcome A.

Definition ret {A} (a : A) : M A := fun s => Done a s.

Definition bind {A B} (m : M A) (k : A -> M B) : M B :=
  fun s => match m s with
           | Undefined => Undefined
           | Done a s' => k a s'
           end.

Notation "'let!' x ':=' m 'in' k" := (bind m (fun x => k))
  (at level 10, x name, m at level 100, k at level 200).
Notation "m ';;;' k" := (bind m (fun _ => k))
  (at level 100, k at level 200, right associativity).

Definition gets {A} (proj : machine -> A) : M A := fun s => Done (proj s) s.
Definition modify (upd : machine -> machine) : M unit := fun s => Done tt (upd s).
Definition undefined {A} : M A := fun _ => Undefined.

Definition of_option {A} (o : option A) : M A :=
  match o with
  | Some a => ret a
  | None => undefined
  end.

(** [io_printf(IO_BUF, ...)] *)
Definition io_printf (e : event) : M unit := modify (log e).

Definition load_word (p : ptr) (i : nat) : M Z :=
  fun s => of_option (read_word s p i) s.

Definition load_ptr (p : ptr) (i : nat) : M ptr :=
  fun s => of_option (read_ptr s p i) s.

Definition store (p : ptr) (i : nat) (v : mval) : M unit :=
  fun s =>
    match p with
    | None => Undefined
    | Some b =>
        match mem s !! b with
        | Some cells =>
            if decide (i < length cells)%nat
            then Done tt (set_mem (<[b := <[i := v]> cells]> (mem s)) s)
            else Undefined
        | None => Undefined
        end
    end.

(** Number of 32-bit cells in [bytes] bytes; every size of this program is a
    multiple of four. *)
Definition cells_of (bytes : Z) : nat := Z.to_nat (bytes / 4).

(** The platform allocator: the next outcome of [future] decides; a request
    that succeeds returns a new block of uninitialised cells. *)
Definition spin1_malloc (bytes : Z) : M ptr :=
  fun s =>
    match future s with
    | true :: fut =>
        let b := length (mem s) in
        Done (Some b)
             (Machine (g_num_activity_filters s) (g_filtered_activities s)
                      (g_activity_filter_params s)
                      (mem s ++ [replicate (cells_of bytes) Vundef])
                      fut (EvMalloc bytes (Some b) :: trace s))
    | _ =>
        Done NULL
             (Machine (g_num_activity_filters s) (g_filtered_activities s)
                      (g_activity_filter_params s) (mem s)
                      (tail (future s)) (EvMalloc bytes NULL :: trace s))
    end.

(** [memcpy(dst, src, bytes)] from the configuration region. *)
Definition memcpy (dst : ptr) (src : list Z) (bytes : Z) : M unit :=
  fun s =>
    match dst with
    | None => Undefined
    | Some b =>
        match mem s !! b with
        | Some cells =>
            if decide (cells_of bytes <= length cells
                       /\ cells_of bytes <= length src)%nat
            then Done tt (set_mem (<[b := (Vword <$> take (cells_of bytes) src)
                                          ++ drop (cells_of bytes) cells]> (mem s)) s)
            else Undefined
        | None => Undefined
        end
    end.

(** [memset(dst, 0, bytes)] *)
Definition memset_zero (dst : ptr) (bytes : Z) : M unit :=
  fun s =>
    match dst with
    | None => Undefined
    | Some b =>
        match mem s !! b with
        | Some cells =>
            if decide (cells_of bytes <= length cells)%nat
            then Done tt (set_mem (<[b := replicate (cells_of bytes) (Vword 0)
                                          ++ drop (cells_of bytes) cells]> (mem s)) s)
            else Undefined
        | None => Undefined
        end
    end.

(** Modelled from the spec: the macro [MALLOC_FAIL_FALSE(VAR, SIZE)] of
    nengo-common.h is missing.  It assigns the result of the allocation to
    [VAR] and makes the enclosing function return [false] when that result
    is null; [rest] is the code after the macro. *)
Definition MALLOC_FAIL_FALSE (assign : ptr -> M unit) (bytes : Z)
    (rest : M bool) : M bool :=
  let! p := spin1_malloc bytes in
  assign p ;;;
  match p with
  | None => ret false
  | Some _ => rest
  end.

(** [for (uint32_t i = start; ...; i++) body], [count] iterations left. *)
Fixpoint for_range (start count : nat) (body : nat -> M unit) : M unit :=
  match count with
  | O => ret tt
  | S c => body start ;;; for_range (S start) c body
  end.

(** ** filtered_activity_initialise *)

(** Lines 53-63: the loop over the filters, followed by [rest].  The [return
    false] of the macro leaves the loop and the function. *)
Fixpoint initialise_filters (n_neurons : Z) (f count : nat) (rest : M bool)
    : M bool :=
  match count with
  | O => rest
  | S c =>
      let! params := gets g_activity_filter_params in
      let! d := load_word params (filter_offset f) in
      let! nd := load_word params (n_filter_offset f) in
      io_printf (EvFilter f d nd) ;;;
      MALLOC_FAIL_FALSE
        (fun p => let! acts := gets g_filtered_activities in
                  store acts f (Vptr p))
        (wrap32 (n_neurons * sizeof_value_t))
        (let! acts := gets g_filtered_activities in
         let! row := load_ptr acts f in
         memset_zero row (wrap32 (n_neurons * sizeof_value_t)) ;;;
         initialise_filters n_neurons (S f) c rest)
  end.

Definition filtered_activity_initialise (address : list Z) (n_neurons : Z)
    : M bool :=
  let! word0 := of_option (address !! 0%nat) in
  modify (set_num word0) ;;;
  let! num := gets g_num_activity_filters in
  io_printf (EvNumFilters num) ;;;
  if 0 <? num then
    MALLOC_FAIL_FALSE (fun p => modify (set_params p))
      (wrap32 (num * sizeof_activity_filter_parameters_t))
      (MALLOC_FAIL_FALSE (fun p => modify (set_activities p))
         (wrap32 (num * sizeof_value_ptr))
         (let! params := gets g_activity_filter_params in
          memcpy params (drop 1 address)
                 (wrap32 (num * sizeof_activity_filter_parameters_t)) ;;;
          initialise_filters n_neurons 0 (Z.to_nat num) (ret true)))
  else ret true.

(** ** filtered_activity_step *)

Section Step.

(** The product of two [value_t] words, as the compiler implements it for
    the fixed-point type; the development is parametric in it. *)
Variable fmul : Z -> Z -> Z.

(** Line 77: [g_filtered_activities[f][n] *= g_activity_filter_params[f].filter] *)
Definition decay_entry (f n : nat) : M unit :=
  let! acts := gets g_filtered_activities in
  let! row := load_ptr acts f in
  let! v := load_word row n in
  let! params := gets g_activity_filter_params in
  let! d := load_word params (filter_offset f) in
  store row n (Vword (fmul v d)).

Definition filtered_activity_step (n_neurons : Z) : M unit :=
  let! num := gets g_num_activity_filters in
  for_range 0 (Z.to_nat num)
    (fun f => for_range 0 (Z.to_nat n_neurons) (fun n => decay_entry f n)).

(** A sequence of calls of [filtered_activity_step], each with its own
    argument. *)
Fixpoint step_calls (ns : list Z) : M unit :=
  match ns with
  | [] => ret tt
  | n :: rest => filtered_activity_step n ;;; step_calls rest
  end.

(** [k] consecutive calls of [filtered_activity_step]. *)
Fixpoint steps (k : nat) (n_neurons : Z) : M unit :=
  match k with
  | O => ret tt
  | S k' => filtered_activity_step n_neurons ;;; steps k' n_neurons
  end.

End Step.

(** ** What happens after initialisation *)

(** Modelled from the spec: the injection of new activity is the work of a
    collaborator that is not part of this file.  It is taken to be a write
    of one value into [g_filtered_activities[f][n]]. *)
Definition inject_activity (f n : nat) (v : Z) : M unit :=
  let! acts := gets g_filtered_activities in
  let! row := load_ptr acts f in
  store row n (Vword v).

(** After [filtered_activity_initialise] the scheduler calls
    [filtered_activity_step], always with the neuron count of the ensemble,
    and the collaborator injects activity. *)
Inductive action : Type :=
  | Step
  | Inject (f n : nat) (v : Z).

Definition perform (fmul : Z -> Z -> Z) (n_neurons : Z) (a : action) : M unit :=
  match a with
  | Step => filtered_activity_step fmul n_neurons
  | Inject f n v => inject_activity f n v
  end.

Fixpoint run (fmul : Z -> Z -> Z) (n_neurons : Z) (acts : list action) : M unit :=
  match acts with
  | [] => ret tt
  | a :: rest => perform fmul n_neurons a ;;; run fmul n_neurons rest
  end.

(** The states of a program that has initialised the filter bank with
    success at start and has stepped and injected since. *)
Definition initialised (fmul : Z -> Z -> Z) (address : list Z) (n_neurons : Z)
    (s : machine) : Prop :=
  exists fut acts s0,
    filtered_activity_initialise address n_neurons (boot fut) = Done true s0
    /\ run fmul n_neurons acts s0 = Done tt s.

(** ** A fixed-point product *)

(** The value of a word read as a signed 32-bit integer. *)
Definition signed32 (w : Z) : Z :=
  if wrap32 w <? 2 ^ 31 then wrap32 w else wrap32 w - 2 ^ 32.

(** The s16.15 product: the 64-bit product of the two signed words, shifted
    right by 15 bits and cut to 32 bits.  The header that gives [value_t] is
    missing; this product is the instance on which the examples run, and
    no result below depends on it unless it says so. *)
Definition accum_mul (a b : Z) : Z :=
  wrap32 (Z.shiftr (signed32 a * signed32 b) 15).

(** A product that, for the coefficient [d], is the real product of the two
    s16.15 numbers rounded down to a multiple of 2^-15. *)
Definition rounds_down (fmul : Z -> Z -> Z) (d : Z) : Prop :=
  forall a, signed32 (fmul a d) = signed32 a * signed32 d / 2 ^ 15.

(** ** The filter bank as a data structure

    [bank s pb qb rows pw vs]: in state [s] the parameter array is block [pb]
    and holds the words [pw]; the array of vectors is block [qb] and holds the
    pointers to the blocks [rows], one per filter; the vector of filter [f] is
    block [rows !! f] and holds the values [vs !! f]; all these blocks are
    different. *)

Definition word_cells (ws : list Z) : list mval := Vword <$> ws.
Definition ptr_cells (rows : list nat) : list mval := (fun b => Vptr (Some b)) <$> rows.

Record bank (s : machine) (pb qb : nat) (rows : list nat) (pw : list Z)
    (vs : list (list Z)) : Prop := Bank {
  bank_num : g_num_activity_filters s = Z.of_nat (length rows);
  bank_params_ptr : g_activity_filter_params s = Some pb;
  bank_acts_ptr : g_filtered_activities s = Some qb;
  bank_params : mem s !! pb = Some (word_cells pw);
  bank_params_len : length pw = (2 * length rows)%nat;
  bank_acts : mem s !! qb = Some (ptr_cells rows);
  bank_nodup : NoDup (pb :: qb :: rows);
  bank_rows : Forall2 (fun b v => mem s !! b = Some (word_cells v)) rows vs
}.

(** Two states that differ in the heap only, and there only inside the
    blocks [rows]. *)
Definition same_but_rows (rows : list nat) (s s' : machine) : Prop :=
  g_num_activity_filters s' = g_num_activity_filters s
  /\ g_filtered_activities s' = g_filtered_activities s
  /\ g_activity_filter_params s' = g_activity_filter_params s
  /\ future s' = future s
  /\ trace s' = trace s
  /\ length (mem s') = length (mem s)
  /\ forall b, b ∉ rows -> mem s' !! b = mem s !! b.

(** The values a vector holds after the inner loop has run from index [i]
    for [count] iterations with coefficient [d], and the vectors after the
    outer loop has run from filter [f] for [count] iterations. *)
Section Decay.
Variable fmul : Z -> Z -> Z.

Fixpoint decay_from (d : Z) (i count : nat) (v : list Z) : list Z :=
  match count with
  | O => v
  | S c => decay_from d (S i) c (alter (fun x => fmul x d) i v)
  end.

Fixpoint decay_rows (n : nat) (pw : list Z) (f count : nat)
    (vs : list (list Z)) : list (list Z) :=
  match count with
  | O => vs
  | S c =>
      decay_rows n pw (S f) c
        (alter (decay_from (default 0 (pw !! filter_offset f)) 0 n) f vs)
  end.

End Decay.

(** ** The configuration region *)

(** Word 0 of the region. *)
Definition num_filters (address : list Z) : Z := default 0 (address !! 0%nat).

(** A region that holds its count and the records the count announces, and
    that lies inside the 32-bit address space. *)
Definition valid_config (address : list Z) : Prop :=
  (0 < length address)%nat
  /\ 0 <= num_filters address
  /\ 1 + 2 * num_filters address <= Z.of_nat (length address)
  /\ 4 * Z.of_nat (length address) <= 2 ^ 32.

(** What the code needs of the region: its count, the records the count
    announces, and a byte count of the parameter array that does not wrap. *)
Definition holds_records (address : list Z) : Prop :=
  (0 < length address)%nat
  /\ 0 <= num_filters address
  /\ 1 + 2 * num_filters address <= Z.of_nat (length address)
  /\ num_filters address * sizeof_activity_filter_parameters_t < 2 ^ 32.

(** The parameter words of the region: the [2 * F] words from word 1 on. *)
Definition param_words (address : list Z) : list Z :=
  take (2 * Z.to_nat (num_filters address)) (drop 1 address).

(** The byte count of one vector does not wrap. *)
Definition vector_fits (n_neurons : Z) : Prop :=
  0 <= n_neurons /\ n_neurons * sizeof_value_t < 2 ^ 32.

(** The number of cells of one vector, as the code computes it. *)
Definition vector_cells (n_neurons : Z) : nat :=
  cells_of (wrap32 (n_neurons * sizeof_value_t)).

(** ** The allocation log *)

(** Block [b] is in the heap and has the size that was asked for. *)
Definition allocated (s : machine) (bytes : Z) (b : nat) : Prop :=
  exists cells, mem s !! b = Some cells /\ length cells = cells_of bytes.

(** Every request the log records as granted is still allocated. *)
Definition alloc_log_ok (s : machine) : Prop :=
  forall bytes b, EvMalloc bytes (Some b) ∈ trace s -> allocated s bytes b.

(** The log records a request that was refused. *)
Definition alloc_failed (s : machine) : Prop :=
  exists bytes, EvMalloc bytes NULL ∈ trace s.

(** No block disappears or changes size. *)
Definition mem_extends (m m' : list (list mval)) : Prop :=
  forall b cells, m !! b = Some cells ->
    exists cells', m' !! b = Some cells' /\ length cells' = length cells.

(** Between two states the parameter array pointer is the same and no block
    has disappeared or changed size. *)
Definition keeps_blocks (s s' : machine) : Prop :=
  g_activity_filter_params s' = g_activity_filter_params s
  /\ mem_extends (mem s) (mem s').

(** The number of cells of the parameter array. *)
Definition params_cells (s : machine) : option nat :=
  match g_activity_filter_params s with
  | Some b => length <$> mem s !! b
  | None => None
  end.

(** ** Invariants *)

(** [filling address len pb qb rows rest s]: the state inside the loop of
    lines 53-63, when the vectors [rows] have been allocated and zeroed and
    the cells [rest] of the array of vectors are still to be assigned. *)
Record filling (address : list Z) (len : nat) (pb qb : nat) (rows : list nat)
    (rest : list mval) (s : machine) : Prop := Filling {
  fi_num : g_num_activity_filters s = num_filters address;
  fi_params_ptr : g_activity_filter_params s = Some pb;
  fi_acts_ptr : g_filtered_activities s = Some qb;
  fi_params : mem s !! pb = Some (word_cells (param_words address));
  fi_acts : mem s !! qb = Some (ptr_cells rows ++ rest);
  fi_count : (length rows + length rest)%nat = Z.to_nat (num_filters address);
  fi_nodup : NoDup (pb :: qb :: rows);
  fi_rows : Forall (fun b => mem s !! b = Some (replicate len (Vword 0))) rows;
  fi_log : alloc_log_ok s;
  fi_nofail : ~ alloc_failed s
}.

(** Either there is no filter and nothing was allocated, or the state is a
    bank whose vectors all have the length that was allocated. *)
Definition ready (address : list Z) (n_neurons : Z) (s : machine) : Prop :=
  g_num_activity_filters s = num_filters address
  /\ ((num_filters address <= 0
       /\ g_filtered_activities s = NULL /\ g_activity_filter_params s = NULL
       /\ mem s = [])
      \/ (0 < num_filters address
          /\ exists rows vs,
               bank s 0 1 rows (param_words address) vs
               /\ forall j v, vs !! j = Some v -> length v = vector_cells n_neurons)).

(** What a call leaves alone: the globals, the allocator, the log, the
    number of blocks and every parameter record. *)
Definition frame (s s' : machine) : Prop :=
  g_num_activity_filters s' = g_num_activity_filters s
  /\ g_filtered_activities s' = g_filtered_activities s
  /\ g_activity_filter_params s' = g_activity_filter_params s
  /\ future s' = future s
  /\ trace s' = trace s
  /\ length (mem s') = length (mem s)
  /\ forall f, params_at s' f = params_at s f.

(** Block [b] is a state vector: a cell of the array of vectors points to
    it. *)
Definition vector_block (s : machine) (b : nat) : Prop :=
  exists f, read_ptr s (g_filtered_activities s) f = Some (Some b).

(** The new value of an entry, from its old value and the parameters of its
    filter: entries below [n] are multiplied by the [filter] field, the
    others are kept. *)
Definition decayed (fmul : Z -> Z -> Z) (n : nat) (s : machine) (f i : nat)
    : option Z :=
  if decide (i < n)%nat
  then match state_at s f i, params_at s f with
       | Some v, Some p => Some (fmul v (filter p))
       | _, _ => None
       end
  else state_at s f i.

(** Two configurations with the same filter count and the same [filter]
    word in every record; the [n_filter] words are free. *)
Definition same_decays (address1 address2 : list Z) : Prop :=
  num_filters address1 = num_filters address2
  /\ forall f, Z.of_nat f < num_filters address1 ->
       address1 !! (1 + 2 * f)%nat = address2 !! (1 + 2 * f)%nat.

(** Two states with the same entries and the same [filter] fields. *)
Definition same_entries (s1 s2 : machine) : Prop :=
  (forall f i, state_at s1 f i = state_at s2 f i)
  /\ (forall f, filter <$> params_at s1 f = filter <$> params_at s2 f).

(** ** A worked configuration

    Two filters with decay 0.5 and 0.9 in s16.15, three neurons, and the
    vectors set to 10, 20, 30 by injection. *)

Definition ex_address : list Z := [2; 16384; 16384; 29491; 3277].
Definition ex_future : list bool := [true; true; true; true].

Definition outcome_state {A} (o : outcome A) : machine :=
  match o with
  | Done _ s => s
  | Undefined => boot []
  end.

Definition ex_initialised : machine :=
  Eval vm_compute in
    outcome_state (filtered_activity_initialise ex_address 3 (boot ex_future)).

Definition ex_injections : list action :=
  [Inject 0 0 327680; Inject 0 1 655360; Inject 0 2 983040;
   Inject 1 0 327680; Inject 1 1 655360; Inject 1 2 983040].

Definition ex_loaded : machine :=
  Eval vm_compute in outcome_state (run accum_mul 3 ex_injections ex_initialised).

(** A second configuration with the same decays and other companion
    values, and a bank made from it. *)
Definition ex_address' : list Z := [2; 16384; 0; 29491; 12345].

Definition ex_initialised' : machine :=
  Eval vm_compute in
    outcome_state (filtered_activity_initialise ex_address' 3 (boot ex_future)).

(** ** The outcome of filtered_activity_initialise in closed form *)

(** The byte count of one vector, as lines 59 and 62 compute it. *)
Definition vector_bytes (n_neurons : Z) : Z := wrap32 (n_neurons * sizeof_value_t).

(** The diagnostic line of filter [f] (lines 55-57), with the words of the
    region. *)
Definition filter_line (address : list Z) (f : nat) : event :=
  EvFilter f (default 0 (address !! (1 + 2 * f)%nat))
             (default 0 (address !! (2 + 2 * f)%nat)).

(** The state inside the loop when [i] vectors are done, for a call that
    found the heap [m0]: the parameter array is the first new block, the
    array of vectors the second; the first [i] cells of the latter point to
    the blocks that follow, its other cells are [slots], and these blocks
    are the zeroed vectors. *)
Definition loop_state (address : list Z) (n_neurons : Z) (m0 : list (list mval))
    (i : nat) (slots : list mval) (fut : list bool) (tr : list event) : machine :=
  Machine (num_filters address) (Some (length m0 + 1)%nat) (Some (length m0))
          (m0 ++ word_cells (param_words address)
              :: (ptr_cells (seq (length m0 + 2) i) ++ slots)
              :: replicate i (replicate (vector_cells n_neurons) (Vword 0)))
          fut tr.

(** The loop of lines 53-63 from filter [i] on, [count] filters left: every
    filter takes one answer of the allocator; the first refusal ends the
    function with [false] and a null pointer in the cell of that filter. *)
Fixpoint fill_outcome (address : list Z) (n_neurons : Z) (m0 : list (list mval))
    (i count : nat) (fut : list bool) (tr : list event) : bool * machine :=
  match count with
  | O => (true, loop_state address n_neurons m0 i [] fut tr)
  | S c =>
      match fut with
      | true :: fut' =>
          fill_outcome address n_neurons m0 (S i) c fut'
            (EvMalloc (vector_bytes n_neurons) (Some (length m0 + 2 + i)%nat)
             :: filter_line address i :: tr)
      | _ =>
          (false,
           loop_state address n_neurons m0 i (Vptr NULL :: replicate c Vundef)
             (tail fut)
             (EvMalloc (vector_bytes n_neurons) NULL
              :: filter_line address i :: tr))
      end
  end.

(** The whole function, called in the state [s0]. *)
Definition initialise_outcome (address : list Z) (n_neurons : Z)
    (s0 : machine) : bool * machine :=
  let num := num_filters address in
  let params_bytes := wrap32 (num * sizeof_activity_filter_parameters_t) in
  let acts_bytes := wrap32 (num * sizeof_value_ptr) in
  let pb := length (mem s0) in
  let tr := EvNumFilters num :: trace s0 in
  if 0 <? num then
    match future s0 with
    | true :: true :: fut' =>
        fill_outcome address n_neurons (mem s0) 0 (Z.to_nat num) fut'
          (EvMalloc acts_bytes (Some (pb + 1)%nat)
           :: EvMalloc params_bytes (Some pb) :: tr)
    | true :: fut' =>
        (false,
         Machine num NULL (Some pb)
                 (mem s0 ++ [replicate (cells_of params_bytes) Vundef])
                 (tail fut')
                 (EvMalloc acts_bytes NULL :: EvMalloc params_bytes (Some pb) :: tr))
    | fut =>
        (false,
         Machine num (g_filtered_activities s0) NULL (mem s0) (tail fut)
                 (EvMalloc params_bytes NULL :: tr))
    end
  else (true,
        Machine num (g_filtered_activities s0) (g_activity_filter_params s0)
                (mem s0) (future s0) tr).

(** The number of grants with which [fut] starts. *)
Fixpoint grants (fut : list bool) : nat :=
  match fut with
  | true :: fut' => S (grants fut')
  | _ => O
  end.

(** The lines that the loop logs for the filters [i] to [i + count - 1] when
    every vector is granted, in the order of time; [pb] is the block of the
    parameter array. *)
Definition vector_log (address : list Z) (n_neurons : Z) (pb i count : nat)
    : list event :=
  flat_map (fun f => [filter_line address f;
                      EvMalloc (vector_bytes n_neurons) (Some (pb + 2 + f)%nat)])
           (seq i count).

(** The log, in the order of time, of a call that is granted everything. *)
Definition full_log (address : list Z) (n_neurons : Z) (pb : nat) : list event :=
  let num := num_filters address in
  EvNumFilters num
  :: EvMalloc (wrap32 (num * sizeof_activity_filter_parameters_t)) (Some pb)
  :: EvMalloc (wrap32 (num * sizeof_value_ptr)) (Some (pb + 1)%nat)
  :: vector_log address n_neurons pb 0 (Z.to_nat num).

(** ** A bank that initialisation left unfinished *)

(** The array of vectors is block [q]; its first cells point to the blocks
    [rows], the next cell holds the null pointer of a refused request and
    the [c] cells after it were never written. *)
Definition null_row (q : nat) (rows : list nat) (c : nat) (s : machine) : Prop :=
  g_filtered_activities s = Some q
  /\ mem s !! q = Some (ptr_cells rows ++ Vptr NULL :: replicate c Vundef).

(** ** A second call on the worked configuration

    The allocator has four more grants when the worked bank is loaded. *)
Definition ex_reloaded : machine :=
  Machine (g_num_activity_filters ex_loaded) (g_filtered_activities ex_loaded)
          (g_activity_filter_params ex_loaded) (mem ex_loaded)
          [true; true; true; true] (trace ex_loaded).

(** ** A neuron count whose byte count wraps

    One filter and 2^30 + 1 neurons: the byte count of a vector wraps to 4. *)
Definition ex_one_filter : list Z := [1; 16384; 16384].

Definition ex_wrapped : machine :=
  Eval vm_compute in
    outcome_state
      (filtered_activity_initialise ex_one_filter (2 ^ 30 + 1)
         (boot [true; true; true])).

(** The worked configuration when the fourth request is refused, and a
    second call on the loaded bank. *)
Definition ex_short_future : list bool := [true; true; true; false].

Definition ex_failed : machine :=
  Eval vm_compute in
    outcome_state (filtered_activity_initialise ex_address 3 (boot ex_short_future)).

Definition ex_again : machine :=
  Eval vm_compute in
    outcome_state (filtered_activity_initialise ex_address 3 ex_reloaded).

(** * Lemmas *)

(** ** The values after the loops *)

Section DecayFacts.
Variable fmul : Z -> Z -> Z.

Lemma decay_from_length d count : forall i v,
  length (decay_from fmul d i count v) = length v.
Proof.
  induction count as [|c IH]; intros i v; simpl; [done|].
  by rewrite IH, length_alter.
Qed.

Lemma decay_from_lookup d count : forall i v j,
  decay_from fmul d i count v !! j =
  if decide (i <= j < i + count)%nat
  then (fun x => fmul x d) <$> v !! j
  else v !! j.
Proof.
  induction count as [|c IH]; intros i v j; simpl.
  - case_decide; [lia|done].
  - rewrite IH. destruct (decide (i = j)) as [->|Hne].
    + rewrite list_lookup_alter_eq.
      repeat case_decide; try lia; done.
    + rewrite list_lookup_alter_ne by done.
      repeat case_decide; try lia; done.
Qed.

Lemma decay_rows_length n pw count : forall f vs,
  length (decay_rows fmul n pw f count vs) = length vs.
Proof.
  induction count as [|c IH]; intros f vs; simpl; [done|].
  by rewrite IH, length_alter.
Qed.

Lemma decay_rows_lookup n pw count : forall f vs j,
  decay_rows fmul n pw f count vs !! j =
  if decide (f <= j < f + count)%nat
  then decay_from fmul (default 0 (pw !! filter_offset j)) 0 n <$> vs !! j
  else vs !! j.
Proof.
  induction count as [|c IH]; intros f vs j; simpl.
  - case_decide; [lia|done].
  - rewrite IH. destruct (decide (f = j)) as [->|Hne].
    + rewrite list_lookup_alter_eq.
      repeat case_decide; try lia; done.
    + rewrite list_lookup_alter_ne by done.
      repeat case_decide; try lia; done.
Qed.

End DecayFacts.

(** ** Reading a bank *)

Section BankFacts.
Context {s : machine} {pb qb : nat} {rows : list nat} {pw : list Z}
        {vs : list (list Z)} (B : bank s pb qb rows pw vs).

Lemma bank_length : length vs = length rows.
Proof. symmetry. eapply Forall2_length, bank_rows, B. Qed.

Lemma bank_row_in f b : rows !! f = Some b -> b ∈ rows /\ b <> pb /\ b <> qb.
Proof using B.
  intros Hf. pose proof (bank_nodup _ _ _ _ _ _ B) as Hnd.
  apply list_elem_of_lookup_2 in Hf.
  apply NoDup_cons in Hnd as [Hpb Hnd]. apply NoDup_cons in Hnd as [Hqb _].
  split; [done|]. split; intros ->.
  - apply Hpb. by right.
  - by apply Hqb.
Qed.

Lemma bank_row f b :
  rows !! f = Some b ->
  exists v, vs !! f = Some v /\ mem s !! b = Some (word_cells v).
Proof using B.
  intros Hf. destruct (Forall2_lookup_l _ _ _ _ _ (bank_rows _ _ _ _ _ _ B) Hf)
    as (v & Hv & Hm). eauto.
Qed.

Lemma bank_row_of f v : vs !! f = Some v -> exists b, rows !! f = Some b.
Proof using B.
  intros Hv. apply lookup_lt_is_Some. rewrite <- bank_length.
  apply lookup_lt_is_Some. eauto.
Qed.

Lemma bank_read_params i : read_word s (g_activity_filter_params s) i = pw !! i.
Proof using B.
  unfold read_word, read_cell.
  rewrite (bank_params_ptr _ _ _ _ _ _ B), (bank_params _ _ _ _ _ _ B).
  unfold word_cells. rewrite list_lookup_fmap. by destruct (pw !! i).
Qed.

Lemma bank_read_row_ptr f :
  read_ptr s (g_filtered_activities s) f = Some <$> rows !! f.
Proof using B.
  unfold read_ptr, read_cell.
  rewrite (bank_acts_ptr _ _ _ _ _ _ B), (bank_acts _ _ _ _ _ _ B).
  unfold ptr_cells. rewrite list_lookup_fmap. by destruct (rows !! f).
Qed.

Lemma bank_read_row f b v n :
  rows !! f = Some b -> vs !! f = Some v -> read_word s (Some b) n = v !! n.
Proof using B.
  intros Hf Hv. destruct (bank_row f b Hf) as (v' & Hv' & Hm).
  assert (v' = v) as -> by congruence.
  unfold read_word, read_cell. rewrite Hm. unfold word_cells.
  rewrite list_lookup_fmap. by destruct (v !! n).
Qed.

Lemma bank_state_at f n :
  state_at s f n = vs !! f ≫= (fun v => v !! n).
Proof using B.
  unfold state_at. rewrite bank_read_row_ptr.
  destruct (rows !! f) as [b|] eqn:Hf; simpl.
  - destruct (bank_row f b Hf) as (v & Hv & _). rewrite Hv. simpl.
    by apply bank_read_row with f.
  - assert (vs !! f = None) as ->; [|done].
    apply lookup_ge_None. rewrite bank_length. by apply lookup_ge_None.
Qed.

Lemma bank_params_at f :
  params_at s f =
  match pw !! filter_offset f, pw !! n_filter_offset f with
  | Some d, Some nd => Some (FilterParameters d nd)
  | _, _ => None
  end.
Proof using B. unfold params_at. by rewrite !bank_read_params. Qed.

(** Replacing the contents of one vector. *)
Lemma bank_set_row f b v' :
  rows !! f = Some b ->
  let s' := set_mem (<[b := word_cells v']> (mem s)) s in
  bank s' pb qb rows pw (<[f := v']> vs) /\ same_but_rows rows s s'.
Proof using B.
  intros Hf s'. destruct (bank_row_in f b Hf) as (Hin & Hpb & Hqb).
  destruct (bank_row f b Hf) as (v & Hv & Hm).
  destruct B as [Hnum Hpp Hqp Hp Hpl Hq Hnd Hrows]. split.
  - split; simpl; try done.
    + by rewrite list_lookup_insert_ne.
    + by rewrite list_lookup_insert_ne.
    + apply Forall2_same_length_lookup. split.
      { rewrite length_insert. by eapply Forall2_length. }
      intros j bj vj Hbj Hvj. destruct (decide (j = f)) as [->|Hne].
      * assert (bj = b) as -> by congruence.
        rewrite list_lookup_insert_eq in Hvj
          by (apply lookup_lt_is_Some; eauto).
        injection Hvj as <-. apply list_lookup_insert_eq.
        apply lookup_lt_is_Some. eauto.
      * rewrite list_lookup_insert_ne in Hvj by done.
        rewrite list_lookup_insert_ne.
        { by apply (Forall2_lookup_lr _ _ _ _ _ _ Hrows Hbj Hvj). }
        intros ->. apply Hne.
        apply NoDup_cons in Hnd as [_ Hnd]. apply NoDup_cons in Hnd as [_ Hnd].
        by apply (NoDup_lookup _ _ _ _ Hnd Hbj Hf).
  - repeat split; simpl; try done.
    + by rewrite length_insert.
    + intros b' Hb'. apply list_lookup_insert_ne. by intros ->.
Qed.

End BankFacts.

Lemma same_but_rows_refl rows s : same_but_rows rows s s.
Proof. by repeat split. Qed.

Lemma same_but_rows_trans rows s1 s2 s3 :
  same_but_rows rows s1 s2 -> same_but_rows rows s2 s3 ->
  same_but_rows rows s1 s3.
Proof.
  intros (?&?&?&?&?&?&H12) (?&?&?&?&?&?&H23).
  repeat split; try congruence.
  intros b Hb. rewrite H23, H12; done.
Qed.

Lemma alter_as_insert {A} (g : A -> A) (l : list A) i x :
  l !! i = Some x -> alter g i l = <[i := g x]> l.
Proof.
  intros Hi. apply list_eq. intros j. destruct (decide (i = j)) as [->|Hne].
  - rewrite list_lookup_alter_eq, Hi, list_lookup_insert_eq; [done|].
    apply lookup_lt_is_Some; eauto.
  - by rewrite list_lookup_alter_ne, list_lookup_insert_ne.
Qed.

(** ** The loops of filtered_activity_step on a bank *)

Section StepOnBank.
Variable fmul : Z -> Z -> Z.
Context {pb qb : nat} {rows : list nat} {pw : list Z}.

Lemma decay_entry_bank s vs f v n x d :
  bank s pb qb rows pw vs ->
  vs !! f = Some v -> v !! n = Some x -> pw !! filter_offset f = Some d ->
  exists s',
    decay_entry fmul f n s = Done tt s'
    /\ bank s' pb qb rows pw (<[f := alter (fun y => fmul y d) n v]> vs)
    /\ same_but_rows rows s s'.
Proof.
  intros B Hv Hx Hd. destruct (bank_row_of B f v Hv) as [b Hb].
  destruct (bank_row B f b Hb) as (v' & Hv' & Hm).
  assert (v' = v) as -> by congruence.
  destruct (bank_set_row B f b (alter (fun y => fmul y d) n v) Hb) as [B' Hsame].
  eexists. split; [|split; [exact B'|exact Hsame]].
  unfold decay_entry, bind, gets, load_word, load_ptr.
  rewrite (bank_read_row_ptr B), Hb. simpl.
  rewrite (bank_read_row B f b v n Hb Hv), Hx. simpl.
  rewrite (bank_read_params B), Hd. simpl.
  unfold store. rewrite Hm.
  rewrite decide_True.
  2:{ unfold word_cells. rewrite length_fmap. apply lookup_lt_is_Some. eauto. }
  do 3 f_equal. unfold word_cells.
  by rewrite (alter_as_insert _ _ _ _ Hx), list_fmap_insert.
Qed.

Lemma decay_vector_bank f d count : forall i s vs v,
  bank s pb qb rows pw vs ->
  vs !! f = Some v -> pw !! filter_offset f = Some d ->
  (i + count <= length v)%nat ->
  exists s',
    for_range i count (decay_entry fmul f) s = Done tt s'
    /\ bank s' pb qb rows pw (<[f := decay_from fmul d i count v]> vs)
    /\ same_but_rows rows s s'.
Proof.
  induction count as [|c IH]; intros i s vs v B Hv Hd Hlen; simpl.
  - exists s. rewrite list_insert_id by done.
    split; [done|]. split; [done|apply same_but_rows_refl].
  - destruct (lookup_lt_is_Some_2 v i) as [x Hx]; [lia|].
    destruct (decay_entry_bank s vs f v i x d B Hv Hx Hd) as (s1 & E1 & B1 & S1).
    destruct (IH (S i) s1 _ (alter (fun y => fmul y d) i v) B1) as (s2 & E2 & B2 & S2).
    + apply list_lookup_insert_eq, lookup_lt_is_Some. eauto.
    + done.
    + rewrite length_alter. lia.
    + exists s2. unfold bind. rewrite E1, E2.
      rewrite list_insert_insert_eq in B2.
      split; [done|]. split; [done|]. by eapply same_but_rows_trans.
Qed.

Lemma decay_filters_bank n count : forall f s vs,
  bank s pb qb rows pw vs ->
  (f + count <= length rows)%nat ->
  (forall j v, vs !! j = Some v -> (n <= length v)%nat) ->
  exists s',
    for_range f count (fun f => for_range 0 n (decay_entry fmul f)) s = Done tt s'
    /\ bank s' pb qb rows pw (decay_rows fmul n pw f count vs)
    /\ same_but_rows rows s s'.
Proof.
  induction count as [|c IH]; intros f s vs B Hlen Hn; simpl.
  - exists s. split; [done|]. split; [done|apply same_but_rows_refl].
  - destruct (lookup_lt_is_Some_2 vs f) as [v Hv];
      [rewrite (bank_length B); lia|].
    destruct (lookup_lt_is_Some_2 pw (filter_offset f)) as [d Hd];
      [rewrite (bank_params_len _ _ _ _ _ _ B); unfold filter_offset; lia|].
    destruct (decay_vector_bank f d n 0%nat s vs v B Hv Hd) as (s1 & E1 & B1 & S1);
      [specialize (Hn f v Hv); lia|].
    rewrite Hd. simpl.
    rewrite (alter_as_insert _ _ _ _ Hv).
    destruct (IH (S f) s1 _ B1) as (s2 & E2 & B2 & S2).
    + lia.
    + intros j w Hw. destruct (decide (j = f)) as [->|Hne].
      * rewrite list_lookup_insert_eq in Hw by (apply lookup_lt_is_Some; eauto).
        injection Hw as <-. rewrite decay_from_length. eauto.
      * rewrite list_lookup_insert_ne in Hw by done. eauto.
    + exists s2. unfold bind. rewrite E1, E2.
      split; [done|]. split; [done|]. by eapply same_but_rows_trans.
Qed.

(** One call of [filtered_activity_step] on a bank whose vectors have at
    least [n_neurons] entries. *)
Lemma step_bank s vs n_neurons :
  bank s pb qb rows pw vs ->
  (forall j v, vs !! j = Some v -> (Z.to_nat n_neurons <= length v)%nat) ->
  exists s',
    filtered_activity_step fmul n_neurons s = Done tt s'
    /\ bank s' pb qb rows pw
         (decay_rows fmul (Z.to_nat n_neurons) pw 0 (length rows) vs)
    /\ same_but_rows rows s s'.
Proof.
  intros B Hn. unfold filtered_activity_step, bind, gets.
  rewrite (bank_num _ _ _ _ _ _ B), Nat2Z.id.
  by apply decay_filters_bank.
Qed.

End StepOnBank.

(** ** The configuration region *)

Lemma cells_of_wrap32 (k n : Z) :
  0 <= n -> 0 < k -> n * (4 * k) < 2 ^ 32 ->
  cells_of (wrap32 (n * (4 * k))) = (Z.to_nat k * Z.to_nat n)%nat.
Proof.
  intros Hn Hk Hlt. unfold cells_of, wrap32.
  rewrite Z.mod_small by lia.
  replace (n * (4 * k)) with (k * n * 4) by lia.
  rewrite Z.div_mul by lia. lia.
Qed.

Lemma valid_config_holds address :
  valid_config address -> holds_records address.
Proof.
  intros (? & ? & ? & ?). unfold holds_records, sizeof_activity_filter_parameters_t.
  repeat split; lia.
Qed.

Lemma holds_records_bound address :
  holds_records address -> num_filters address * 8 < 2 ^ 32.
Proof. by intros (_ & _ & _ & ?). Qed.

Lemma param_words_length address :
  holds_records address ->
  length (param_words address) = (2 * Z.to_nat (num_filters address))%nat.
Proof.
  intros (? & ? & ? & ?). unfold param_words.
  rewrite length_take, length_drop. lia.
Qed.

(** ** The allocation log *)

Lemma mem_extends_trans m1 m2 m3 :
  mem_extends m1 m2 -> mem_extends m2 m3 -> mem_extends m1 m3.
Proof.
  intros H12 H23 b cells H. destruct (H12 b cells H) as (c2 & H2 & L2).
  destruct (H23 b c2 H2) as (c3 & H3 & L3). exists c3. split; [done|congruence].
Qed.

Lemma mem_extends_app m blk : mem_extends m (m ++ [blk]).
Proof. intros b cells H. exists cells. split; [by apply lookup_app_l_Some|done]. Qed.

Lemma mem_extends_insert m b old new :
  m !! b = Some old -> length new = length old -> mem_extends m (<[b := new]> m).
Proof.
  intros Hb Hlen b' cells H. destruct (decide (b' = b)) as [->|Hne].
  - exists new. split; [|congruence].
    apply list_lookup_insert_eq, lookup_lt_is_Some; eauto.
  - exists cells. by rewrite list_lookup_insert_ne.
Qed.

(** ** Running the primitives *)

Lemma bind_Done {A B} (m : M A) (k : A -> M B) s a s' :
  m s = Done a s' -> bind m k s = k a s'.
Proof. unfold bind. by intros ->. Qed.

Lemma load_word_Done s p i w :
  read_word s p i = Some w -> load_word p i s = Done w s.
Proof. unfold load_word. by intros ->. Qed.

Lemma load_ptr_Done s p i q :
  read_ptr s p i = Some q -> load_ptr p i s = Done q s.
Proof. unfold load_ptr. by intros ->. Qed.

Lemma store_Done s b i v cells :
  mem s !! b = Some cells -> (i < length cells)%nat ->
  store (Some b) i v s = Done tt (set_mem (<[b := <[i := v]> cells]> (mem s)) s).
Proof. intros Hb Hi. unfold store. rewrite Hb. by rewrite decide_True. Qed.

Lemma spin1_malloc_granted s bytes fut :
  future s = true :: fut ->
  spin1_malloc bytes s =
  Done (Some (length (mem s)))
       (Machine (g_num_activity_filters s) (g_filtered_activities s)
                (g_activity_filter_params s)
                (mem s ++ [replicate (cells_of bytes) Vundef])
                fut (EvMalloc bytes (Some (length (mem s))) :: trace s)).
Proof. unfold spin1_malloc. by intros ->. Qed.

Lemma spin1_malloc_refused s bytes :
  (forall fut, future s <> true :: fut) ->
  spin1_malloc bytes s =
  Done NULL
       (Machine (g_num_activity_filters s) (g_filtered_activities s)
                (g_activity_filter_params s) (mem s)
                (tail (future s)) (EvMalloc bytes NULL :: trace s)).
Proof.
  unfold spin1_malloc. intros Hf.
  destruct (future s) as [|[] fut]; try done. by destruct (Hf fut).
Qed.

Lemma memset_zero_Done s b bytes cells :
  mem s !! b = Some cells -> length cells = cells_of bytes ->
  memset_zero (Some b) bytes s =
  Done tt (set_mem (<[b := replicate (cells_of bytes) (Vword 0)]> (mem s)) s).
Proof.
  intros Hb Hlen. unfold memset_zero. rewrite Hb.
  rewrite decide_True by lia.
  by rewrite drop_ge, app_nil_r by lia.
Qed.

Lemma memcpy_Done s b bytes cells src :
  mem s !! b = Some cells -> length cells = cells_of bytes ->
  (cells_of bytes <= length src)%nat ->
  memcpy (Some b) src bytes s =
  Done tt (set_mem (<[b := word_cells (take (cells_of bytes) src)]> (mem s)) s).
Proof.
  intros Hb Hlen Hsrc. unfold memcpy. rewrite Hb.
  rewrite decide_True by lia.
  by rewrite drop_ge, app_nil_r by lia.
Qed.

Ltac proj :=
  cbn [g_num_activity_filters g_filtered_activities g_activity_filter_params
       mem future trace set_num set_activities set_params set_mem log] in *.

Lemma ptr_cells_length rows : length (ptr_cells rows) = length rows.
Proof. apply length_fmap. Qed.

Lemma ptr_cells_assign rows t rest b :
  <[length rows := Vptr (Some b)]> (ptr_cells rows ++ t :: rest)
  = ptr_cells (rows ++ [b]) ++ rest.
Proof.
  unfold ptr_cells. rewrite fmap_app, <- app_assoc. simpl.
  replace (length rows) with (length ((fun b => Vptr (Some b)) <$> rows) + 0)%nat
    by (rewrite length_fmap; lia).
  by rewrite insert_app_r.
Qed.

(** ** The loop of filtered_activity_initialise *)

Section InitialiseLoop.
Variables (address : list Z) (n_neurons : Z) (pb qb : nat).
Hypothesis Hvalid : holds_records address.

Lemma filling_read_params rows t rest s :
  filling address (vector_cells n_neurons) pb qb rows (t :: rest) s ->
  exists d nd,
    read_word s (Some pb) (filter_offset (length rows)) = Some d
    /\ read_word s (Some pb) (n_filter_offset (length rows)) = Some nd.
Proof using Hvalid.
  intros F. pose proof (param_words_length address Hvalid) as Hlen.
  pose proof (fi_count _ _ _ _ _ _ _ F) as Hc. simpl in Hc.
  destruct (lookup_lt_is_Some_2 (param_words address) (filter_offset (length rows)))
    as [d Hd]; [unfold filter_offset; lia|].
  destruct (lookup_lt_is_Some_2 (param_words address) (n_filter_offset (length rows)))
    as [nd Hnd]; [unfold n_filter_offset; lia|].
  exists d, nd. unfold read_word, read_cell.
  rewrite (fi_params _ _ _ _ _ _ _ F). unfold word_cells.
  by rewrite !list_lookup_fmap, Hd, Hnd.
Qed.

Lemma filling_block_lt rows rest s b :
  filling address (vector_cells n_neurons) pb qb rows rest s ->
  b ∈ pb :: qb :: rows -> (b < length (mem s))%nat.
Proof.
  intros F Hin. apply lookup_lt_is_Some.
  apply elem_of_cons in Hin as [->|Hin]; [rewrite (fi_params _ _ _ _ _ _ _ F); eauto|].
  apply elem_of_cons in Hin as [->|Hin]; [rewrite (fi_acts _ _ _ _ _ _ _ F); eauto|].
  pose proof (fi_rows _ _ _ _ _ _ _ F) as Hrows.
  rewrite Forall_forall in Hrows. rewrite (Hrows b Hin). eauto.
Qed.

Lemma initialise_filters_granted rows t rest s fut c k :
  filling address (vector_cells n_neurons) pb qb rows (t :: rest) s ->
  future s = true :: fut ->
  exists s',
    initialise_filters n_neurons (length rows) (S c) k s
    = initialise_filters n_neurons (S (length rows)) c k s'
    /\ filling address (vector_cells n_neurons) pb qb
         (rows ++ [length (mem s)]) rest s'
    /\ future s' = fut.
Proof using Hvalid.
  intros F Hfut.
  destruct (filling_read_params rows t rest s F) as (d & nd & Hd & Hnd).
  pose proof (fun b => filling_block_lt rows (t :: rest) s b F) as Hlt.
  destruct F as [Hnum Hpp Hqp Hp Hq Hc Hnd' Hrows Hlog Hnf].
  destruct s as [num acts params m fu tr]. proj. subst acts params fu.
  assert (length rows < length (ptr_cells rows ++ t :: rest))%nat as Hf1.
  { rewrite length_app. unfold ptr_cells. rewrite length_fmap. simpl. lia. }
  assert (qb < length m)%nat as Hqlt
    by apply Hlt, list_elem_of_further, list_elem_of_here.
  assert (pb < length m)%nat as Hplt by apply Hlt, list_elem_of_here.
  set (len := vector_cells n_neurons) in *.
  set (m1 := m ++ [replicate len Vundef]).
  set (m2 := <[qb := ptr_cells (rows ++ [length m]) ++ rest]> m1).
  assert (m2 !! length m = Some (replicate len Vundef)) as Hb2.
  { unfold m2, m1. rewrite list_lookup_insert_ne by lia.
    apply list_lookup_middle. done. }
  eexists. split; [|split].
  - cbn [initialise_filters].
    rewrite (bind_Done (gets _) _ _ _ _ eq_refl). proj.
    rewrite (bind_Done _ _ _ _ _ (load_word_Done _ _ _ _ Hd)).
    rewrite (bind_Done _ _ _ _ _ (load_word_Done _ _ _ _ Hnd)).
    rewrite (bind_Done (io_printf _) _ _ tt _ eq_refl).
    unfold MALLOC_FAIL_FALSE, io_printf, modify. proj.
    erewrite (bind_Done (spin1_malloc _)) by (by apply spin1_malloc_granted).
    proj.
    erewrite (bind_Done (bind _ _)).
    2:{ rewrite (bind_Done (gets _) _ _ _ _ eq_refl). proj.
        apply store_Done with (cells := ptr_cells rows ++ t :: rest); [|done].
        proj. by apply lookup_app_l_Some. }
    proj. rewrite ptr_cells_assign. fold len m1 m2.
    rewrite (bind_Done (gets _) _ _ _ _ eq_refl). proj.
    erewrite (bind_Done (load_ptr _ _)).
    2:{ apply load_ptr_Done. unfold read_ptr, read_cell. proj.
        unfold m2. rewrite list_lookup_insert_eq by (unfold m1; rewrite length_app; lia).
        rewrite lookup_app_l by (unfold ptr_cells; rewrite length_fmap, length_app; simpl; lia).
        unfold ptr_cells. rewrite list_lookup_fmap.
        rewrite list_lookup_middle by done. done. }
    erewrite (bind_Done (memset_zero _ _)).
    2:{ apply memset_zero_Done with (cells := replicate len Vundef).
        - proj. exact Hb2.
        - by rewrite length_replicate. }
    proj. fold (vector_cells n_neurons). fold len. reflexivity.
  - split; proj; try done.
    + rewrite list_lookup_insert_ne by lia.
      unfold m2. rewrite list_lookup_insert_ne.
      * by apply lookup_app_l_Some.
      * intros ->. apply NoDup_cons in Hnd' as [Hnd' _].
        apply Hnd', list_elem_of_here.
    + rewrite list_lookup_insert_ne by lia.
      unfold m2. apply list_lookup_insert_eq. unfold m1. rewrite length_app. lia.
    + rewrite length_app. simpl in *. lia.
    + assert (length m ∉ pb :: qb :: rows) as Hfresh.
      { intros Hin. specialize (Hlt _ Hin). lia. }
      change (NoDup ((pb :: qb :: rows) ++ [length m])).
      apply NoDup_app. split; [done|]. split; [|apply NoDup_singleton].
      intros x Hx Hx'. apply list_elem_of_singleton in Hx' as ->. by apply Hfresh.
    + apply Forall_app. split.
      * rewrite Forall_forall in Hrows. apply Forall_forall. intros b Hb.
        assert (b < length m)%nat
          by (by apply Hlt, list_elem_of_further, list_elem_of_further).
        rewrite list_lookup_insert_ne by lia.
        unfold m2. rewrite list_lookup_insert_ne.
        { apply lookup_app_l_Some. by apply Hrows. }
        intros ->. apply NoDup_cons in Hnd' as [_ Hnd'].
        apply NoDup_cons in Hnd' as [Hqb _]. done.
      * apply Forall_singleton. apply list_lookup_insert_eq.
        unfold m2. rewrite length_insert. unfold m1. rewrite length_app. simpl. lia.
    + intros bytes b Hin. proj.
      apply elem_of_cons in Hin as [Heq|Hin].
      { injection Heq as -> ->. eexists. split.
        - apply list_lookup_insert_eq. unfold m2. rewrite length_insert.
          unfold m1. rewrite length_app. simpl. lia.
        - by rewrite length_replicate. }
      apply elem_of_cons in Hin as [Heq|Hin]; [done|].
      destruct (Hlog bytes b Hin) as (cells & Hb & Hlen). proj.
      assert (mem_extends m (<[length m := replicate len (Vword 0)]> m2)) as Hext.
      { eapply mem_extends_trans; [apply mem_extends_app|]. fold m1.
        eapply mem_extends_trans.
        - apply (mem_extends_insert m1 qb (ptr_cells rows ++ t :: rest)
                   (ptr_cells (rows ++ [length m]) ++ rest)).
          + by apply lookup_app_l_Some.
          + rewrite (length_app (ptr_cells (rows ++ [length m]))).
            rewrite (length_app (ptr_cells rows)).
            rewrite !ptr_cells_length, (length_app rows). simpl. lia.
        - fold m2. apply (mem_extends_insert m2 _ _ _ Hb2).
          by rewrite !length_replicate. }
      destruct (Hext b cells Hb) as (c' & Hb' & Hl').
      exists c'. proj. split; [done|congruence].
    + intros (bytes & Hin). apply Hnf. exists bytes. proj.
      apply elem_of_cons in Hin as [Heq|Hin]; [done|].
      apply elem_of_cons in Hin as [Heq|Hin]; [done|]. done.
  - done.
Qed.

Lemma initialise_filters_refused rows t rest s c k :
  filling address (vector_cells n_neurons) pb qb rows (t :: rest) s ->
  (forall fut, future s <> true :: fut) ->
  exists s',
    initialise_filters n_neurons (length rows) (S c) k s = Done false s'
    /\ g_num_activity_filters s' = num_filters address
    /\ alloc_log_ok s' /\ alloc_failed s'.
Proof using Hvalid.
  intros F Hfut.
  destruct (filling_read_params rows t rest s F) as (d & nd & Hd & Hnd).
  destruct F as [Hnum Hpp Hqp Hp Hq Hc Hnd' Hrows Hlog Hnf].
  destruct s as [num acts params m fu tr]. proj. subst acts params.
  assert (length rows < length (ptr_cells rows ++ t :: rest))%nat as Hf1.
  { rewrite length_app, ptr_cells_length. simpl. lia. }
  eexists. split; [|split; [|split]].
  - cbn [initialise_filters].
    rewrite (bind_Done (gets _) _ _ _ _ eq_refl). proj.
    rewrite (bind_Done _ _ _ _ _ (load_word_Done _ _ _ _ Hd)).
    rewrite (bind_Done _ _ _ _ _ (load_word_Done _ _ _ _ Hnd)).
    rewrite (bind_Done (io_printf _) _ _ tt _ eq_refl).
    unfold MALLOC_FAIL_FALSE, io_printf, modify. proj.
    erewrite (bind_Done (spin1_malloc _)) by (by apply spin1_malloc_refused).
    proj.
    erewrite (bind_Done (bind _ _)).
    2:{ rewrite (bind_Done (gets _) _ _ _ _ eq_refl). proj.
        by apply store_Done with (cells := ptr_cells rows ++ t :: rest). }
    reflexivity.
  - done.
  - intros bytes b Hin. proj.
    apply elem_of_cons in Hin as [Heq|Hin]; [done|].
    apply elem_of_cons in Hin as [Heq|Hin]; [done|].
    destruct (Hlog bytes b Hin) as (cells & Hb & Hlen). proj.
    destruct (mem_extends_insert m qb _
                (<[length rows := Vptr NULL]> (ptr_cells rows ++ t :: rest))
                Hq (length_insert _ _ _) b cells Hb) as (c' & Hb' & Hl').
    exists c'. proj. split; [done|congruence].
  - eexists. proj. apply list_elem_of_here.
Qed.

(** The whole loop: either every remaining vector is allocated and zeroed
    and the code after the loop runs, or one request is refused and the
    function returns [false] at once. *)
Lemma initialise_filters_spec count : forall rows rest s,
  filling address (vector_cells n_neurons) pb qb rows rest s ->
  length rest = count ->
  exists b s',
    initialise_filters n_neurons (length rows) count (ret true) s = Done b s'
    /\ if b
       then exists rows', filling address (vector_cells n_neurons) pb qb rows' [] s'
       else g_num_activity_filters s' = num_filters address
            /\ alloc_log_ok s' /\ alloc_failed s'.
Proof using Hvalid.
  induction count as [|c IH]; intros rows rest s F Hlen.
  - destruct rest; [|done]. exists true, s. split; [done|]. by exists rows.
  - destruct rest as [|t rest]; [done|]. injection Hlen as Hlen.
    destruct (future s) as [|[] fut] eqn:Hfut.
    + destruct (initialise_filters_refused rows t rest s c (ret true) F) as (s' & E & ?);
        [by rewrite Hfut|].
      by exists false, s'.
    + destruct (initialise_filters_granted rows t rest s fut c (ret true) F Hfut)
        as (s1 & E & F1 & _).
      destruct (IH _ _ s1 F1 Hlen) as (b & s' & E' & Hpost).
      exists b, s'. split; [|done]. rewrite E.
      replace (S (length rows)) with (length (rows ++ [length (mem s)]))
        by (rewrite length_app; simpl; lia).
      done.
    + destruct (initialise_filters_refused rows t rest s c (ret true) F) as (s' & E & ?);
        [by rewrite Hfut|].
      by exists false, s'.
Qed.

End InitialiseLoop.

(** When the loop has assigned every cell, the state is a bank of zeroed
    vectors. *)
Lemma filling_bank address n_neurons pb qb rows s :
  holds_records address ->
  filling address (vector_cells n_neurons) pb qb rows [] s ->
  bank s pb qb rows (param_words address)
       (replicate (length rows) (replicate (vector_cells n_neurons) 0)).
Proof.
  intros Hvalid [Hnum Hpp Hqp Hp Hq Hc Hnd Hrows Hlog Hnf].
  pose proof Hvalid as (_ & Hnn & _). simpl in Hc.
  split; try done.
  - rewrite Hnum. lia.
  - rewrite (param_words_length _ Hvalid). lia.
  - by rewrite app_nil_r in Hq.
  - apply Forall2_same_length_lookup. split; [by rewrite length_replicate|].
    intros i b v Hb Hv. apply lookup_replicate in Hv as [-> _].
    rewrite Forall_forall in Hrows. unfold word_cells. rewrite fmap_replicate.
    apply Hrows. by eapply list_elem_of_lookup_2.
Qed.

(** ** filtered_activity_initialise from program start *)

Lemma holds_records_word0 address :
  holds_records address -> address !! 0%nat = Some (num_filters address).
Proof.
  intros (Hlen & _). unfold num_filters.
  destruct address; simpl in *; [lia|done].
Qed.

Lemma initialise_spec address n_neurons fut :
  holds_records address ->
  exists b s',
    filtered_activity_initialise address n_neurons (boot fut) = Done b s'
    /\ g_num_activity_filters s' = num_filters address
    /\ alloc_log_ok s'
    /\ if b
       then ~ alloc_failed s'
            /\ (0 < num_filters address ->
                exists rows,
                  filling address (vector_cells n_neurons) 0 1 rows [] s')
            /\ (num_filters address = 0 ->
                s' = log (EvNumFilters 0) (boot fut))
       else alloc_failed s'.
Proof.
  intros Hvalid. pose proof (holds_records_word0 _ Hvalid) as H0.
  pose proof (holds_records_bound _ Hvalid) as Hbound.
  pose proof Hvalid as (_ & Hnn & Hrec & _).
  set (F := num_filters address) in *.
  unfold filtered_activity_initialise. rewrite H0. cbn [of_option].
  rewrite (bind_Done (ret _) _ _ _ _ eq_refl).
  rewrite (bind_Done (modify _) _ _ tt _ eq_refl).
  rewrite (bind_Done (gets _) _ _ _ _ eq_refl). proj.
  rewrite (bind_Done (io_printf _) _ _ tt _ eq_refl).
  unfold boot. proj.
  destruct (0 <? F) eqn:Hpos.
  2:{ apply Z.ltb_ge in Hpos. assert (F = 0) as HF by lia.
      exists true. eexists. split; [reflexivity|]. proj.
      split; [done|]. split.
      { intros bytes b Hin. proj. apply elem_of_cons in Hin as [?|Hin]; [done|].
        by apply elem_of_nil in Hin. }
      split; [|split].
      - intros (bytes & Hin). proj. apply elem_of_cons in Hin as [?|Hin]; [done|].
        by apply elem_of_nil in Hin.
      - lia.
      - intros _. rewrite HF. reflexivity. }
  apply Z.ltb_lt in Hpos.
  unfold MALLOC_FAIL_FALSE.
  destruct fut as [|[] fut].
  1,3: (exists false; eexists; split; [reflexivity|]; proj;
        split; [done|]; split;
        [ intros bytes b Hin; proj; apply elem_of_cons in Hin as [?|Hin]; [done|];
          apply elem_of_cons in Hin as [?|Hin]; [done|]; by apply elem_of_nil in Hin
        | eexists; proj; apply list_elem_of_here ]).
  erewrite (bind_Done (spin1_malloc _)) by (by apply spin1_malloc_granted).
  proj.
  rewrite (bind_Done (modify _) _ _ tt _ eq_refl). proj.
  set (plen := cells_of (wrap32 (F * sizeof_activity_filter_parameters_t))).
  set (qlen := cells_of (wrap32 (F * sizeof_value_ptr))).
  assert (plen = 2 * Z.to_nat F)%nat as Hplen.
  { unfold plen, sizeof_activity_filter_parameters_t.
    change 8 with (4 * 2). rewrite (cells_of_wrap32 2 F) by lia. lia. }
  assert (qlen = Z.to_nat F) as Hqlen.
  { unfold qlen, sizeof_value_ptr.
    change 4 with (4 * 1) at 1. rewrite (cells_of_wrap32 1 F) by lia. lia. }
  destruct fut as [|[] fut].
  1,3: (exists false; eexists; split; [reflexivity|]; proj;
        split; [done|]; split;
        [ intros bytes b Hin; proj; apply elem_of_cons in Hin as [?|Hin]; [done|];
          apply elem_of_cons in Hin as [Heq|Hin];
          [ injection Heq as -> ->; eexists; split; [reflexivity|];
            by rewrite length_replicate
          | apply elem_of_cons in Hin as [?|Hin]; [done|];
            by apply elem_of_nil in Hin ]
        | eexists; proj; apply list_elem_of_here ]).
  erewrite (bind_Done (spin1_malloc _)) by (by apply spin1_malloc_granted).
  proj.
  rewrite (bind_Done (modify _) _ _ tt _ eq_refl). proj.
  rewrite (bind_Done (gets _) _ _ _ _ eq_refl). proj.
  erewrite (bind_Done (memcpy _ _ _)).
  2:{ apply memcpy_Done with (cells := replicate plen Vundef).
      - reflexivity.
      - by rewrite length_replicate.
      - fold plen. rewrite length_drop. lia. }
  cbv [set_mem set_activities]. proj. cbn [app length]. fold plen qlen.
  set (s3 := Machine _ _ _ _ _ _).
  assert (filling address (vector_cells n_neurons) 0 1 [] (replicate qlen Vundef) s3)
    as Fill.
  { split; subst s3; proj; try done.
    - cbn. unfold param_words. fold F. by rewrite Hplen.
    - simpl. by rewrite length_replicate.
    - apply NoDup_cons. split; [|apply NoDup_singleton].
      by intros ?%list_elem_of_singleton.
    - intros bytes b Hin. proj.
      apply elem_of_cons in Hin as [Heq|Hin].
      { injection Heq as -> ->. eexists. split; [reflexivity|].
        by rewrite length_replicate. }
      apply elem_of_cons in Hin as [Heq|Hin].
      { injection Heq as -> ->. eexists. split; [reflexivity|].
        unfold word_cells. rewrite length_fmap, length_take, length_drop.
        fold plen. lia. }
      apply elem_of_cons in Hin as [?|Hin]; [done|]. by apply elem_of_nil in Hin.
    - intros (bytes & Hin). proj.
      apply elem_of_cons in Hin as [?|Hin]; [done|].
      apply elem_of_cons in Hin as [?|Hin]; [done|].
      apply elem_of_cons in Hin as [?|Hin]; [done|]. by apply elem_of_nil in Hin. }
  destruct (initialise_filters_spec address n_neurons 0%nat 1%nat Hvalid
              (Z.to_nat F) [] _ s3 Fill) as (b & s' & E & Hpost).
  { rewrite length_replicate. done. }
  exists b, s'. split; [exact E|].
  destruct b.
  - destruct Hpost as (rows & Fin). split; [apply (fi_num _ _ _ _ _ _ _ Fin)|].
    split; [apply (fi_log _ _ _ _ _ _ _ Fin)|].
    split; [apply (fi_nofail _ _ _ _ _ _ _ Fin)|].
    split; [by exists rows|lia].
  - destruct Hpost as (? & ? & ?). done.
Qed.

(** ** A call of filtered_activity_initialise that returns true *)

Lemma bind_Done_inv {A B} (m : M A) (k : A -> M B) s b s' :
  bind m k s = Done b s' -> exists a s1, m s = Done a s1 /\ k a s1 = Done b s'.
Proof. unfold bind. destruct (m s) as [|a s1]; [done|]. eauto. Qed.

Lemma load_word_inv s p i w s' :
  load_word p i s = Done w s' -> s' = s /\ read_word s p i = Some w.
Proof.
  unfold load_word. destruct (read_word s p i) as [x|]; [|done].
  intros H. by injection H as -> ->.
Qed.

Lemma load_ptr_inv s p i q s' :
  load_ptr p i s = Done q s' -> s' = s /\ read_ptr s p i = Some q.
Proof.
  unfold load_ptr. destruct (read_ptr s p i) as [x|]; [|done].
  intros H. by injection H as -> ->.
Qed.

Lemma keeps_blocks_refl s : keeps_blocks s s.
Proof. split; [done|]. intros b cells H. eauto. Qed.

Lemma keeps_blocks_trans s1 s2 s3 :
  keeps_blocks s1 s2 -> keeps_blocks s2 s3 -> keeps_blocks s1 s3.
Proof.
  intros [H12 M12] [H23 M23]. split; [congruence|].
  by eapply mem_extends_trans.
Qed.

Lemma store_keeps_blocks s p i v s' :
  store p i v s = Done tt s' -> keeps_blocks s s'.
Proof.
  unfold store. destruct p as [b|]; [|done].
  destruct (mem s !! b) as [cells|] eqn:Hb; [|done].
  case_decide; [|done]. intros Hrun. injection Hrun as <-.
  split; [done|]. proj. apply (mem_extends_insert _ _ cells); [done|].
  apply length_insert.
Qed.

Lemma memset_zero_keeps_blocks s p bytes s' :
  memset_zero p bytes s = Done tt s' -> keeps_blocks s s'.
Proof.
  unfold memset_zero. destruct p as [b|]; [|done].
  destruct (mem s !! b) as [cells|] eqn:Hb; [|done].
  case_decide; [|done]. intros Hrun. injection Hrun as <-.
  split; [done|]. proj. apply (mem_extends_insert _ _ cells); [done|].
  rewrite length_app, length_replicate, length_drop. lia.
Qed.

Lemma spin1_malloc_keeps_blocks s bytes p s' :
  spin1_malloc bytes s = Done p s' -> keeps_blocks s s'.
Proof.
  unfold spin1_malloc. intros Hrun.
  destruct (future s) as [|[] fut]; injection Hrun as <- <-; split; proj;
    try done; try apply mem_extends_app; intros b cells Hb; eauto.
Qed.

Lemma keeps_params_cells s s' n :
  keeps_blocks s s' -> params_cells s = Some n -> params_cells s' = Some n.
Proof.
  intros [Hp Hext]. unfold params_cells. rewrite Hp.
  destruct (g_activity_filter_params s) as [b|]; [|done].
  destruct (mem s !! b) as [cells|] eqn:Hb; [|done]. simpl.
  destruct (Hext b cells Hb) as (cells' & -> & Hlen). simpl. congruence.
Qed.

Lemma read_params_cells s i w :
  read_word s (g_activity_filter_params s) i = Some w ->
  exists n, params_cells s = Some n /\ (i < n)%nat.
Proof.
  unfold read_word, read_cell, params_cells.
  destruct (g_activity_filter_params s) as [b|]; [|done].
  destruct (mem s !! b) as [cells|]; [|done]. simpl.
  destruct (cells !! i) as [c|] eqn:Hc; [|done]. intros _.
  exists (length cells). split; [done|]. apply lookup_lt_is_Some. eauto.
Qed.

(** When the loop returns true, every iteration has read both fields of its
    record from inside the parameter array. *)
Lemma initialise_filters_true n_neurons count : forall f s s',
  initialise_filters n_neurons f count (ret true) s = Done true s' ->
  forall j, (f <= j < f + count)%nat ->
    exists n, params_cells s = Some n /\ (n_filter_offset j < n)%nat.
Proof.
  induction count as [|c IH]; intros f s s' H j Hj; [lia|].
  cbn [initialise_filters] in H.
  apply bind_Done_inv in H as (params & s1 & Hg & H). injection Hg as <- <-.
  apply bind_Done_inv in H as (d & s1 & Hd & H). apply load_word_inv in Hd as [-> Hd].
  apply bind_Done_inv in H as (nd & s1 & Hnd & H). apply load_word_inv in Hnd as [-> Hnd].
  apply bind_Done_inv in H as ([] & s1 & Hlog & H). injection Hlog as <-.
  unfold MALLOC_FAIL_FALSE in H.
  apply bind_Done_inv in H as (p & s2 & Hmalloc & H).
  apply bind_Done_inv in H as ([] & s3 & Hassign & H).
  destruct p as [b|]; [|done].
  apply bind_Done_inv in Hassign as (acts & s2' & Hg & Hassign). injection Hg as <- <-.
  apply bind_Done_inv in H as (acts & s3' & Hg & H). injection Hg as <- <-.
  apply bind_Done_inv in H as (row & s3' & Hrow & H). apply load_ptr_inv in Hrow as [-> Hrow].
  apply bind_Done_inv in H as ([] & s4 & Hset & H).
  destruct (read_params_cells s _ _ Hnd) as (n & Hn & Hlt).
  destruct (decide (j = f)) as [->|Hne]; [by exists n|].
  destruct (IH (S f) s4 s' H j) as (n' & Hn' & Hlt'); [lia|].
  assert (keeps_blocks s s4) as Hkeep.
  { eapply keeps_blocks_trans; [|by eapply memset_zero_keeps_blocks].
    eapply keeps_blocks_trans; [|by eapply store_keeps_blocks].
    eapply keeps_blocks_trans; [|by eapply spin1_malloc_keeps_blocks].
    split; [done|]. intros b' cells Hb. eauto. }
  rewrite (keeps_params_cells s s4 n Hkeep Hn) in Hn'. injection Hn' as <-.
  by exists n.
Qed.

(** A call that returns true with at least one filter has found its
    records in the region, and the byte count of the parameter array has not
    wrapped. *)
Lemma initialise_true_holds address n_neurons fut s :
  filtered_activity_initialise address n_neurons (boot fut) = Done true s ->
  0 < num_filters address ->
  holds_records address.
Proof.
  intros H Hpos. unfold filtered_activity_initialise in H.
  assert (address !! 0%nat = Some (num_filters address)) as H0.
  { unfold num_filters. destruct (address !! 0%nat) as [F|]; [done|].
    apply bind_Done_inv in H as (? & ? & ? & _). done. }
  assert (0 < length address)%nat as Hlen
    by (apply lookup_lt_is_Some; eauto).
  set (F := num_filters address) in *.
  rewrite H0 in H. cbn [of_option] in H.
  rewrite (bind_Done (ret _) _ _ _ _ eq_refl) in H.
  rewrite (bind_Done (modify _) _ _ tt _ eq_refl) in H.
  rewrite (bind_Done (gets _) _ _ _ _ eq_refl) in H. proj.
  rewrite (bind_Done (io_printf _) _ _ tt _ eq_refl) in H.
  unfold boot in H. proj.
  assert ((0 <? F) = true) as Hb by (by apply Z.ltb_lt).
  rewrite Hb in H.
  unfold MALLOC_FAIL_FALSE in H.
  destruct fut as [|[] fut]; [done| |done].
  erewrite (bind_Done (spin1_malloc _)) in H by (by apply spin1_malloc_granted).
  proj. rewrite (bind_Done (modify _) _ _ tt _ eq_refl) in H. proj.
  destruct fut as [|[] fut]; [done| |done].
  erewrite (bind_Done (spin1_malloc _)) in H by (by apply spin1_malloc_granted).
  proj. rewrite (bind_Done (modify _) _ _ tt _ eq_refl) in H. proj.
  rewrite (bind_Done (gets _) _ _ _ _ eq_refl) in H. proj.
  set (plen := cells_of (wrap32 (F * sizeof_activity_filter_parameters_t))) in *.
  apply bind_Done_inv in H as ([] & s3 & Hcopy & Hloop).
  unfold memcpy in Hcopy. cbv [set_mem set_activities] in Hcopy. proj.
  cbn [app length lookup list_lookup] in Hcopy.
  case_decide as Hsrc; [|done]. injection Hcopy as <-.
  destruct Hsrc as [_ Hsrc]. fold plen in Hsrc. rewrite length_drop in Hsrc.
  destruct (initialise_filters_true n_neurons (Z.to_nat F) 0%nat _ s
              Hloop (Z.to_nat F - 1)%nat) as (n & Hn & Hlt); [lia|].
  unfold params_cells in Hn. proj. cbn [lookup list_lookup list_insert insert] in Hn.
  simpl in Hn. injection Hn as <-.
  rewrite length_app, length_drop, length_replicate in Hlt.
  unfold word_cells in Hlt. rewrite length_fmap, length_take, length_drop in Hlt.
  fold plen in Hlt.
  assert (2 * Z.to_nat F <= plen)%nat as Hp by (unfold n_filter_offset in Hlt; lia).
  unfold plen, cells_of, wrap32, sizeof_activity_filter_parameters_t in Hp.
  pose proof (Z.mod_pos_bound (F * 8) (2 ^ 32) eq_refl) as Hmod.
  assert (F * 8 <= (F * 8) mod 2 ^ 32) as Hle.
  { pose proof (Z.mul_div_le ((F * 8) mod 2 ^ 32) 4 eq_refl). lia. }
  unfold holds_records. fold F. unfold sizeof_activity_filter_parameters_t.
  split; [done|]. split; [lia|]. split; [|lia].
  assert (Z.of_nat plen <= Z.of_nat (length address) - 1) by lia.
  unfold plen, cells_of, wrap32, sizeof_activity_filter_parameters_t in *. lia.
Qed.

(** A call on a region whose word 0 is not positive. *)
Lemma initialise_none address n_neurons fut b s :
  filtered_activity_initialise address n_neurons (boot fut) = Done b s ->
  num_filters address <= 0 ->
  b = true
  /\ s = log (EvNumFilters (num_filters address))
           (set_num (num_filters address) (boot fut)).
Proof.
  intros H Hle. unfold filtered_activity_initialise in H.
  assert (address !! 0%nat = Some (num_filters address)) as H0.
  { unfold num_filters. destruct (address !! 0%nat) as [F|]; [done|].
    apply bind_Done_inv in H as (? & ? & ? & _). done. }
  rewrite H0 in H. cbn [of_option] in H.
  rewrite (bind_Done (ret _) _ _ _ _ eq_refl) in H.
  rewrite (bind_Done (modify _) _ _ tt _ eq_refl) in H.
  rewrite (bind_Done (gets _) _ _ _ _ eq_refl) in H. proj.
  rewrite (bind_Done (io_printf _) _ _ tt _ eq_refl) in H.
  assert ((0 <? num_filters address) = false) as Hf by (by apply Z.ltb_ge).
  unfold boot in *. proj. rewrite Hf in H. by injection H as <- <-.
Qed.

(** ** The invariant of an initialised filter bank *)

Lemma frame_refl s : frame s s.
Proof. by repeat split. Qed.

Lemma frame_trans s1 s2 s3 : frame s1 s2 -> frame s2 s3 -> frame s1 s3.
Proof.
  intros (?&?&?&?&?&?&H12) (?&?&?&?&?&?&H23).
  repeat split; try congruence.
Qed.

Lemma bank_frame s s' pb qb rows pw vs vs' :
  bank s pb qb rows pw vs -> bank s' pb qb rows pw vs' ->
  same_but_rows rows s s' -> frame s s'.
Proof.
  intros B B' (?&?&?&?&?&?&_). repeat split; try done.
  intros f. by rewrite (bank_params_at B), (bank_params_at B').
Qed.

Lemma initialise_ready address n_neurons fut s :
  filtered_activity_initialise address n_neurons (boot fut) = Done true s ->
  ready address n_neurons s.
Proof.
  intros Hinit.
  destruct (decide (0 < num_filters address)) as [Hpos|Hle].
  - pose proof (initialise_true_holds _ _ _ _ Hinit Hpos) as Hholds.
    destruct (initialise_spec address n_neurons fut Hholds)
      as (b & s' & E & Hnum & _ & Hpost).
    rewrite Hinit in E. injection E as <- <-.
    destruct Hpost as (_ & Hfill & _). split; [done|].
    right. split; [done|]. destruct (Hfill Hpos) as (rows & Fill).
    eexists rows, _. split; [by apply filling_bank|].
    intros j v Hv. apply lookup_replicate in Hv as [-> _].
    by rewrite length_replicate.
  - destruct (initialise_none _ _ _ _ _ Hinit) as [_ ->]; [lia|].
    split; [done|]. left. split; [lia|done].
Qed.

Lemma vector_fits_cells n_neurons :
  vector_fits n_neurons -> vector_cells n_neurons = Z.to_nat n_neurons.
Proof.
  intros [Hnn Hlt]. unfold vector_cells, sizeof_value_t in *.
  change 4 with (4 * 1) at 1. rewrite (cells_of_wrap32 1 n_neurons) by lia. lia.
Qed.

Section StepOnReady.
Variable fmul : Z -> Z -> Z.
Variables (address : list Z) (n_neurons : Z).

Lemma bank_decayed s pb qb rows pw vs n f i :
  bank s pb qb rows pw vs ->
  decay_rows fmul n pw 0 (length rows) vs !! f ≫= (fun v => v !! i)
  = decayed fmul n s f i.
Proof.
  intros B. unfold decayed.
  rewrite (bank_state_at B), (bank_params_at B), decay_rows_lookup.
  destruct (vs !! f) as [v|] eqn:Hv; simpl.
  2:{ repeat case_decide; done. }
  assert (f < length rows)%nat as Hf.
  { rewrite <- (bank_length B). apply lookup_lt_is_Some. eauto. }
  rewrite decide_True by lia. simpl.
  rewrite decay_from_lookup.
  destruct (lookup_lt_is_Some_2 pw (filter_offset f)) as [d Hd];
    [rewrite (bank_params_len _ _ _ _ _ _ B); unfold filter_offset; lia|].
  destruct (lookup_lt_is_Some_2 pw (n_filter_offset f)) as [nd Hnd];
    [rewrite (bank_params_len _ _ _ _ _ _ B); unfold n_filter_offset; lia|].
  rewrite Hd, Hnd. simpl.
  destruct (decide (i < n)%nat).
  - rewrite decide_True by lia. by destruct (v !! i).
  - rewrite decide_False by lia. done.
Qed.

(** One call of [filtered_activity_step] with a neuron count that the
    vectors can hold. *)
Lemma step_ready s n :
  ready address n_neurons s ->
  (0 < num_filters address -> (Z.to_nat n <= vector_cells n_neurons)%nat) ->
  exists s',
    filtered_activity_step fmul n s = Done tt s'
    /\ ready address n_neurons s'
    /\ frame s s'
    /\ forall f i, state_at s' f i = decayed fmul (Z.to_nat n) s f i.
Proof.
  intros (Hnum & [(Hz & Hacts & Hparams & Hmem)|(Hpos & rows & vs & B & Hlen)]) Hn.
  - exists s. split; [|split; [|split]].
    + unfold filtered_activity_step.
      rewrite (bind_Done (gets _) _ _ _ _ eq_refl).
      by rewrite Hnum, (Z2Nat.nonpos _ Hz).
    + split; [done|]. by left.
    + apply frame_refl.
    + intros f i. unfold decayed, state_at, read_ptr, read_cell.
      rewrite Hacts. by case_decide.
  - destruct (step_bank fmul s vs n B) as (s' & E & B' & Hsame).
    { intros j v Hv. rewrite (Hlen j v Hv). auto. }
    exists s'. split; [done|]. split; [|split].
    + destruct Hsame as (Hn' & _). split; [congruence|]. right. split; [done|].
      eexists rows, _. split; [exact B'|].
      intros j v Hv. rewrite decay_rows_lookup in Hv.
      destruct (vs !! j) as [w|] eqn:Hw; [|by case_decide].
      case_decide; simpl in Hv; injection Hv as <-.
      * rewrite decay_from_length. eauto.
      * eauto.
    + by eapply bank_frame.
    + intros f i. rewrite (bank_state_at B').
      exact (bank_decayed s _ _ _ _ _ _ f i B).
Qed.

End StepOnReady.

(** ** Calls that return *)

(** A loop that returns has run every iteration: an invariant [P] of the
    body holds at the end, and what a returning iteration [i] shows, [Q i],
    holds for every index of the range. *)
Lemma for_range_Done (body : nat -> M unit) (P : machine -> Prop)
    (Q : nat -> Prop) :
  (forall i s s', P s -> body i s = Done tt s' -> P s' /\ Q i) ->
  forall count i s s',
    P s -> for_range i count body s = Done tt s' ->
    P s' /\ forall j, (i <= j < i + count)%nat -> Q j.
Proof.
  intros Hbody. induction count as [|c IH]; intros i s s' HP Hrun; simpl in Hrun.
  - injection Hrun as <-. split; [done|]. lia.
  - apply bind_Done_inv in Hrun as ([] & s1 & H1 & H2).
    destruct (Hbody i s s1 HP H1) as [HP1 HQ].
    destruct (IH (S i) s1 s' HP1 H2) as [HP' HQ'].
    split; [done|]. intros j Hj. destruct (decide (j = i)) as [->|]; [done|].
    apply HQ'. lia.
Qed.

Section Returning.
Variable fmul : Z -> Z -> Z.
Variables (address : list Z) (n_neurons : Z).

Lemma decay_entry_Done s pb qb rows pw vs f i s' :
  bank s pb qb rows pw vs ->
  decay_entry fmul f i s = Done tt s' ->
  exists v x, vs !! f = Some v /\ v !! i = Some x.
Proof.
  intros B. unfold decay_entry, bind, gets, load_ptr, load_word.
  rewrite (bank_read_row_ptr B).
  destruct (rows !! f) as [b|] eqn:Hb; simpl; [|done].
  destruct (bank_row B f b Hb) as (v & Hv & Hm).
  rewrite (bank_read_row B f b v i Hb Hv).
  destruct (v !! i) as [x|] eqn:Hx; simpl; [|done].
  intros _. eauto.
Qed.

Lemma step_Done_bound s n s' :
  ready address n_neurons s ->
  0 < num_filters address ->
  filtered_activity_step fmul n s = Done tt s' ->
  (Z.to_nat n <= vector_cells n_neurons)%nat.
Proof.
  intros (Hnum & [(Hz & _)|(_ & rows & vs & B & Hlen)]) Hpos Hrun; [lia|].
  unfold filtered_activity_step in Hrun.
  apply bind_Done_inv in Hrun as (num & s1 & Hg & Hrun).
  injection Hg as <- <-. rewrite Hnum in Hrun.
  set (P := fun s0 : machine =>
              exists vs0, bank s0 0 1 rows (param_words address) vs0
                /\ forall j v, vs0 !! j = Some v -> length v = vector_cells n_neurons).
  set (Q := fun _ : nat => (Z.to_nat n <= vector_cells n_neurons)%nat).
  set (Q' := fun i : nat => (i < vector_cells n_neurons)%nat).
  assert (forall f i s0 s0', P s0 -> decay_entry fmul f i s0 = Done tt s0' ->
                             P s0' /\ Q' i) as Hentry.
  { clear.
    intros f i s s' (vs & B & Hlen) Hentry.
    destruct (decay_entry_Done s _ _ _ _ _ f i s' B Hentry) as (v & x & Hv & Hx).
    destruct (decay_entry_bank fmul s vs f v i x
                (default 0 (param_words address !! filter_offset f)) B Hv Hx)
      as (s'' & E & B' & _).
    { destruct (lookup_lt_is_Some_2 (param_words address) (filter_offset f)) as [d Hd].
      - rewrite (bank_params_len _ _ _ _ _ _ B). unfold filter_offset.
        assert (f < length rows)%nat; [|lia].
        rewrite <- (bank_length B). apply lookup_lt_is_Some. eauto.
      - by rewrite Hd. }
    rewrite Hentry in E. injection E as <-. split.
    + eexists. split; [exact B'|]. intros j w Hw.
      destruct (decide (j = f)) as [->|Hne].
      * rewrite list_lookup_insert_eq in Hw by (apply lookup_lt_is_Some; eauto).
        injection Hw as <-. rewrite length_alter. eauto.
      * rewrite list_lookup_insert_ne in Hw by done. eauto.
    + unfold Q'. rewrite <- (Hlen f v Hv). apply lookup_lt_is_Some. eauto. }
  assert (forall f s0 s0', P s0 ->
            for_range 0 (Z.to_nat n) (fun i => decay_entry fmul f i) s0 = Done tt s0' ->
            P s0' /\ Q f) as Hvector.
  { intros f s0 s0' HP Hinner.
    destruct (for_range_Done _ P Q' (Hentry f) _ _ _ _ HP Hinner) as [HP' HQ'].
    split; [done|]. unfold Q, Q' in *.
    destruct (Z.to_nat n) as [|k]; [lia|]. specialize (HQ' k). lia. }
  assert (P s) as HP by (by exists vs).
  destruct (for_range_Done _ P Q Hvector _ _ _ _ HP Hrun) as [_ HQ].
  apply (HQ 0%nat). lia.
Qed.

(** Every call of [filtered_activity_step] that returns, whatever its
    argument. *)
Lemma step_Done_ready s n s' :
  ready address n_neurons s ->
  filtered_activity_step fmul n s = Done tt s' ->
  ready address n_neurons s'
  /\ frame s s'
  /\ forall f i, state_at s' f i = decayed fmul (Z.to_nat n) s f i.
Proof.
  intros R Hrun.
  destruct (step_ready fmul address n_neurons s n R) as (s'' & E & ?).
  { intros Hpos. by eapply step_Done_bound. }
  rewrite Hrun in E. by injection E as <-.
Qed.

(** A call that returns writes into the state vectors only: every other
    block, the two arrays among them, is as it was. *)
Lemma step_Done_vectors s n s' :
  ready address n_neurons s ->
  filtered_activity_step fmul n s = Done tt s' ->
  (forall f,
     read_ptr s' (g_filtered_activities s') f
     = read_ptr s (g_filtered_activities s) f)
  /\ (forall b, ~ vector_block s b -> mem s' !! b = mem s !! b)
  /\ (forall b,
        g_activity_filter_params s = Some b \/ g_filtered_activities s = Some b ->
        ~ vector_block s b).
Proof.
  intros R Hrun. pose proof R as (Hnum & [(Hz & Hacts & Hparams & Hmem)|(Hpos & rows & vs & B & Hlen)]).
  - unfold filtered_activity_step in Hrun.
    rewrite (bind_Done (gets _) _ _ _ _ eq_refl) in Hrun.
    rewrite Hnum, (Z2Nat.nonpos _ Hz) in Hrun. injection Hrun as <-.
    split; [done|]. split; [done|].
    intros b [Hb|Hb]; congruence.
  - pose proof (step_Done_bound s n s' R Hpos Hrun) as Hn.
    destruct (step_bank fmul s vs n B) as (s'' & E & B' & Hsame).
    { intros j v Hv. by rewrite (Hlen j v Hv). }
    rewrite Hrun in E. injection E as <-.
    assert (forall b, vector_block s b <-> b ∈ rows) as Hrows.
    { intros b. unfold vector_block. split.
      - intros [f Hf]. rewrite (bank_read_row_ptr B) in Hf.
        destruct (rows !! f) as [b'|] eqn:Hb; [|done].
        injection Hf as <-. by eapply list_elem_of_lookup_2.
      - intros Hb. apply list_elem_of_lookup_1 in Hb as [f Hf].
        exists f. by rewrite (bank_read_row_ptr B), Hf. }
    pose proof (bank_nodup _ _ _ _ _ _ B) as Hnd.
    apply NoDup_cons in Hnd as [Hp Hnd]. apply NoDup_cons in Hnd as [Hq _].
    split; [|split].
    + intros f. by rewrite (bank_read_row_ptr B'), (bank_read_row_ptr B).
    + intros b Hb. destruct Hsame as (_ & _ & _ & _ & _ & _ & Hm).
      apply Hm. by rewrite <- Hrows.
    + intros b [Hb|Hb]; rewrite Hrows.
      * rewrite (bank_params_ptr _ _ _ _ _ _ B) in Hb. injection Hb as <-.
        intros Hin. apply Hp. by apply list_elem_of_further.
      * rewrite (bank_acts_ptr _ _ _ _ _ _ B) in Hb. by injection Hb as <-.
Qed.

End Returning.

(** ** Injection and whole runs *)

Section Runs.
Variable fmul : Z -> Z -> Z.
Variables (address : list Z) (n_neurons : Z).

Lemma inject_bank s pb qb rows pw vs f i w s' :
  bank s pb qb rows pw vs ->
  inject_activity f i w s = Done tt s' ->
  exists v, vs !! f = Some v /\ (i < length v)%nat
    /\ bank s' pb qb rows pw (<[f := <[i := w]> v]> vs)
    /\ same_but_rows rows s s'.
Proof.
  intros B. unfold inject_activity, bind, gets, load_ptr.
  rewrite (bank_read_row_ptr B).
  destruct (rows !! f) as [b|] eqn:Hb; simpl; [|done].
  destruct (bank_row B f b Hb) as (v & Hv & Hm).
  unfold store. rewrite Hm.
  case_decide as Hi; [|done]. intros H. injection H as <-.
  unfold word_cells in Hi. rewrite length_fmap in Hi.
  exists v. split; [done|]. split; [done|].
  replace (<[i := Vword w]> (word_cells v)) with (word_cells (<[i := w]> v))
    by apply list_fmap_insert.
  by apply (bank_set_row B f b).
Qed.

Lemma inject_ready s f i w s' :
  ready address n_neurons s ->
  inject_activity f i w s = Done tt s' ->
  ready address n_neurons s'
  /\ frame s s'
  /\ forall f' i', state_at s' f' i' =
       if decide (f' = f /\ i' = i) then Some w else state_at s f' i'.
Proof.
  intros (Hnum & [(Hz & Hacts & _)|(Hpos & rows & vs & B & Hlen)]) Hrun.
  { unfold inject_activity, bind, gets, load_ptr, read_ptr, read_cell in Hrun.
    by rewrite Hacts in Hrun. }
  destruct (inject_bank s _ _ _ _ _ f i w s' B Hrun) as (v & Hv & Hi & B' & Hsame).
  split; [|split].
  - destruct Hsame as (Hn' & _). split; [congruence|]. right. split; [done|].
    eexists rows, _. split; [exact B'|]. intros j u Hu.
    destruct (decide (j = f)) as [->|Hne].
    + rewrite list_lookup_insert_eq in Hu by (apply lookup_lt_is_Some; eauto).
      injection Hu as <-. rewrite length_insert. eauto.
    + rewrite list_lookup_insert_ne in Hu by done. eauto.
  - by eapply bank_frame.
  - intros f' i'. rewrite (bank_state_at B'), (bank_state_at B).
    destruct (decide (f' = f)) as [->|Hne].
    + rewrite list_lookup_insert_eq by (apply lookup_lt_is_Some; eauto).
      rewrite Hv. simpl. destruct (decide (i' = i)) as [->|Hne'].
      * rewrite decide_True by done. by apply list_lookup_insert_eq.
      * rewrite decide_False by (by intros [_ ?]). by apply list_lookup_insert_ne.
    + rewrite list_lookup_insert_ne by done.
      by rewrite decide_False by (by intros [? _]).
Qed.

Lemma perform_ready s a s' :
  ready address n_neurons s ->
  perform fmul n_neurons a s = Done tt s' ->
  ready address n_neurons s' /\ frame s s'.
Proof.
  intros R Hrun. destruct a as [|f i w]; simpl in Hrun.
  - destruct (step_Done_ready fmul address n_neurons s _ s' R Hrun) as (? & ? & _).
    done.
  - destruct (inject_ready s f i w s' R Hrun) as (? & ? & _). done.
Qed.

Lemma run_ready acts : forall s s',
  ready address n_neurons s ->
  run fmul n_neurons acts s = Done tt s' ->
  ready address n_neurons s' /\ frame s s'.
Proof.
  induction acts as [|a acts IH]; intros s s' R Hrun; simpl in Hrun.
  - injection Hrun as <-. split; [done|apply frame_refl].
  - apply bind_Done_inv in Hrun as ([] & s1 & H1 & H2).
    destruct (perform_ready s a s1 R H1) as [R1 F1].
    destruct (IH s1 s' R1 H2) as [R' F']. split; [done|].
    by eapply frame_trans.
Qed.

Lemma initialised_ready s :
  initialised fmul address n_neurons s ->
  ready address n_neurons s.
Proof.
  intros (fut & acts & s0 & Hinit & Hrun).
  eapply run_ready; [|exact Hrun].
  by eapply initialise_ready.
Qed.

End Runs.

(** ** The state that filtered_activity_initialise leaves *)

Section Initialised.
Variables (address : list Z) (n_neurons : Z) (fut : list bool) (s : machine).
Hypothesis Hinit :
  filtered_activity_initialise address n_neurons (boot fut) = Done true s.

Lemma initialise_bank :
  0 < num_filters address ->
  exists rows,
    length rows = Z.to_nat (num_filters address)
    /\ bank s 0 1 rows (param_words address)
         (replicate (length rows) (replicate (vector_cells n_neurons) 0)).
Proof using Hinit.
  intros Hpos.
  pose proof (initialise_true_holds _ _ _ _ Hinit Hpos) as Hholds.
  destruct (initialise_spec address n_neurons fut Hholds)
    as (b & s' & E & Hnum & _ & Hpost).
  rewrite Hinit in E. injection E as <- <-.
  destruct Hpost as (_ & Hfill & _). destruct (Hfill Hpos) as (rows & Fill).
  exists rows. split; [|by apply filling_bank].
  pose proof (fi_count _ _ _ _ _ _ _ Fill) as Hc. simpl in Hc. lia.
Qed.

(** Every entry of every vector that was allocated is zero, and there is
    no other entry. *)
Lemma initialise_state_at f n :
  state_at s f n =
  if decide (f < Z.to_nat (num_filters address)
             /\ n < vector_cells n_neurons)%nat
  then Some 0 else None.
Proof using Hinit.
  destruct (decide (0 < num_filters address)) as [Hpos|Hle].
  - destruct (initialise_bank Hpos) as (rows & Hlen & B).
    rewrite (bank_state_at B), <- Hlen.
    destruct (decide (f < length rows)%nat) as [Hf|Hf].
    + rewrite lookup_replicate_2 by done. simpl.
      destruct (decide (n < vector_cells n_neurons)%nat) as [Hn|Hn].
      * rewrite decide_True by done. by apply lookup_replicate_2.
      * rewrite decide_False by lia. apply lookup_replicate_None. lia.
    + rewrite decide_False by lia.
      assert (replicate (length rows) (replicate (vector_cells n_neurons) 0) !! f
              = None) as ->; [|done].
      apply lookup_replicate_None. lia.
  - destruct (initialise_none _ _ _ _ _ Hinit) as [_ ->]; [lia|].
    rewrite decide_False by lia. done.
Qed.

(** The parameter records are the words of the configuration region. *)
Lemma initialise_params_at f :
  (f < Z.to_nat (num_filters address))%nat ->
  exists d nd,
    address !! (1 + 2 * f)%nat = Some d
    /\ address !! (2 + 2 * f)%nat = Some nd
    /\ params_at s f = Some (FilterParameters d nd).
Proof using Hinit.
  intros Hf. assert (0 < num_filters address) as Hpos by lia.
  pose proof (initialise_true_holds _ _ _ _ Hinit Hpos) as (_ & Hnn & Hrec & _).
  destruct (initialise_bank Hpos) as (rows & Hlen & B).
  destruct (lookup_lt_is_Some_2 address (1 + 2 * f)) as [d Hd]; [lia|].
  destruct (lookup_lt_is_Some_2 address (2 + 2 * f)) as [nd Hnd]; [lia|].
  exists d, nd. split; [done|]. split; [done|].
  rewrite (bank_params_at B). unfold param_words, filter_offset, n_filter_offset.
  rewrite !lookup_take_lt by lia. rewrite !lookup_drop.
  replace (1 + (2 * f + 1))%nat with (2 + 2 * f)%nat by lia.
  by rewrite Hd, Hnd.
Qed.

End Initialised.

(** In a bank that is ready, every entry below the allocated length exists
    and every filter has its parameters. *)
Lemma ready_entry address n_neurons s f n :
  ready address n_neurons s ->
  Z.of_nat f < num_filters address -> (n < vector_cells n_neurons)%nat ->
  exists v p, state_at s f n = Some v /\ params_at s f = Some p.
Proof.
  intros (Hnum & [(Hz & _)|(_ & rows & vs & B & Hlen)]) Hf Hn; [lia|].
  assert (f < length rows)%nat as Hf'.
  { rewrite (bank_num _ _ _ _ _ _ B) in Hnum. lia. }
  destruct (lookup_lt_is_Some_2 vs f) as [v Hv]; [rewrite (bank_length B); lia|].
  destruct (lookup_lt_is_Some_2 v n) as [x Hx]; [rewrite (Hlen f v Hv); lia|].
  destruct (lookup_lt_is_Some_2 (param_words address) (filter_offset f)) as [d Hd];
    [rewrite (bank_params_len _ _ _ _ _ _ B); unfold filter_offset; lia|].
  destruct (lookup_lt_is_Some_2 (param_words address) (n_filter_offset f)) as [nd Hnd];
    [rewrite (bank_params_len _ _ _ _ _ _ B); unfold n_filter_offset; lia|].
  exists x, (FilterParameters d nd).
  rewrite (bank_state_at B), (bank_params_at B), Hv, Hd, Hnd. simpl. done.
Qed.

Lemma ready_state_filter address n_neurons s f n v :
  ready address n_neurons s -> state_at s f n = Some v ->
  Z.of_nat f < num_filters address.
Proof.
  intros (Hnum & [(_ & Hacts & _)|(_ & rows & vs & B & Hlen)]) Hv.
  - unfold state_at, read_ptr, read_cell in Hv. by rewrite Hacts in Hv.
  - rewrite (bank_state_at B) in Hv.
    destruct (vs !! f) as [w|] eqn:Hw; simpl in Hv; [|done].
    assert (f < length rows)%nat.
    { rewrite <- (bank_length B). apply lookup_lt_is_Some. eauto. }
    rewrite (bank_num _ _ _ _ _ _ B) in Hnum. lia.
Qed.

(** ** Two banks with the same decays *)

Lemma ready_params_none address n_neurons s f :
  ready address n_neurons s -> ~ Z.of_nat f < num_filters address ->
  params_at s f = None.
Proof.
  intros (Hnum & [(_ & _ & Hparams & _)|(_ & rows & vs & B & Hlen)]) Hf.
  - unfold params_at, read_word, read_cell. by rewrite Hparams.
  - rewrite (bank_params_at B).
    assert (param_words address !! filter_offset f = None) as ->; [|done].
    apply lookup_ge_None. rewrite (bank_params_len _ _ _ _ _ _ B).
    rewrite (bank_num _ _ _ _ _ _ B) in Hnum. unfold filter_offset. lia.
Qed.

Lemma inject_total address n_neurons s f i w :
  ready address n_neurons s -> is_Some (state_at s f i) ->
  exists s', inject_activity f i w s = Done tt s'.
Proof.
  intros (Hnum & [(_ & Hacts & _)|(_ & rows & vs & B & Hlen)]) [x Hx].
  { unfold state_at, read_ptr, read_cell in Hx. by rewrite Hacts in Hx. }
  rewrite (bank_state_at B) in Hx.
  destruct (vs !! f) as [v|] eqn:Hv; simpl in Hx; [|done].
  destruct (bank_row_of B f v Hv) as [b Hb].
  destruct (bank_row B f b Hb) as (v' & Hv' & Hm).
  assert (v' = v) as -> by congruence.
  eexists. unfold inject_activity.
  rewrite (bind_Done (gets _) _ _ _ _ eq_refl).
  erewrite (bind_Done (load_ptr _ _)).
  2:{ apply load_ptr_Done. rewrite (bank_read_row_ptr B), Hb. done. }
  apply store_Done with (cells := word_cells v); [done|].
  unfold word_cells. rewrite length_fmap. apply lookup_lt_is_Some. eauto.
Qed.

Lemma inject_Done_entry address n_neurons s f i w s' :
  ready address n_neurons s -> inject_activity f i w s = Done tt s' ->
  is_Some (state_at s f i).
Proof.
  intros (Hnum & [(_ & Hacts & _)|(_ & rows & vs & B & Hlen)]) Hrun.
  { unfold inject_activity, bind, gets, load_ptr, read_ptr, read_cell in Hrun.
    by rewrite Hacts in Hrun. }
  destruct (inject_bank s _ _ _ _ _ f i w s' B Hrun) as (v & Hv & Hi & _).
  rewrite (bank_state_at B), Hv. simpl. by apply lookup_lt_is_Some.
Qed.

Section TwoBanks.
Variable fmul : Z -> Z -> Z.
Variables (address1 address2 : list Z) (n_neurons : Z).
Hypothesis Hcount : num_filters address1 = num_filters address2.

Lemma decayed_same s1 s2 n f i :
  same_entries s1 s2 -> decayed fmul n s1 f i = decayed fmul n s2 f i.
Proof.
  intros [Hst Hpar]. unfold decayed. rewrite Hst. specialize (Hpar f).
  destruct (params_at s1 f) as [p1|], (params_at s2 f) as [p2|];
    simpl in Hpar; try done.
  by injection Hpar as ->.
Qed.

Lemma frame_same_entries s1 s2 s1' s2' :
  same_entries s1 s2 -> frame s1 s1' -> frame s2 s2' ->
  (forall f i, state_at s1' f i = state_at s2' f i) ->
  same_entries s1' s2'.
Proof.
  intros [_ Hpar] (_ & _ & _ & _ & _ & _ & H1) (_ & _ & _ & _ & _ & _ & H2) Hst.
  split; [done|]. intros f. by rewrite H1, H2.
Qed.

Lemma perform_same s1 s2 a s1' :
  ready address1 n_neurons s1 -> ready address2 n_neurons s2 ->
  same_entries s1 s2 ->
  perform fmul n_neurons a s1 = Done tt s1' ->
  exists s2',
    perform fmul n_neurons a s2 = Done tt s2'
    /\ ready address1 n_neurons s1' /\ ready address2 n_neurons s2'
    /\ same_entries s1' s2'.
Proof using Hcount.
  intros R1 R2 Hsame Hrun. destruct a as [|f i w]; simpl in *.
  - destruct (step_Done_ready fmul address1 n_neurons s1 _ s1' R1 Hrun)
      as (R1' & Fr1 & H1).
    destruct (step_ready fmul address2 n_neurons s2 n_neurons R2)
      as (s2' & E2 & R2' & Fr2 & H2).
    { intros Hpos. eapply (step_Done_bound fmul address1); [exact R1| |exact Hrun].
      by rewrite Hcount. }
    exists s2'. split; [done|]. split; [done|]. split; [done|].
    apply (frame_same_entries s1 s2); try done.
    intros f i. rewrite H1, H2. by apply decayed_same.
  - destruct (inject_ready address1 n_neurons s1 f i w s1' R1 Hrun)
      as (R1' & Fr1 & H1).
    destruct (inject_total address2 n_neurons s2 f i w R2) as [s2' E2].
    { destruct Hsame as [Hst _]. rewrite <- Hst.
      by eapply inject_Done_entry. }
    destruct (inject_ready address2 n_neurons s2 f i w s2' R2 E2)
      as (R2' & Fr2 & H2).
    exists s2'. split; [done|]. split; [done|]. split; [done|].
    apply (frame_same_entries s1 s2); try done.
    intros f' i'. rewrite H1, H2. destruct Hsame as [Hst _]. by rewrite Hst.
Qed.

Lemma run_same acts : forall s1 s2 s1',
  ready address1 n_neurons s1 -> ready address2 n_neurons s2 ->
  same_entries s1 s2 ->
  run fmul n_neurons acts s1 = Done tt s1' ->
  exists s2', run fmul n_neurons acts s2 = Done tt s2' /\ same_entries s1' s2'.
Proof using Hcount.
  induction acts as [|a acts IH]; intros s1 s2 s1' R1 R2 Hsame Hrun; simpl in *.
  - injection Hrun as <-. by exists s2.
  - apply bind_Done_inv in Hrun as ([] & t1 & Ha & Hrest).
    destruct (perform_same s1 s2 a t1 R1 R2 Hsame Ha) as (t2 & Ea & Rt1 & Rt2 & Hs).
    destruct (IH t1 t2 s1' Rt1 Rt2 Hs Hrest) as (s2' & E & Hs').
    exists s2'. split; [|done]. by rewrite (bind_Done _ _ _ _ _ Ea).
Qed.

End TwoBanks.

(** ** The s16.15 product *)

Lemma signed32_range w : - 2 ^ 31 <= signed32 w < 2 ^ 31.
Proof.
  unfold signed32, wrap32.
  pose proof (Z.mod_pos_bound w (2 ^ 32) eq_refl).
  destruct (Z.ltb_spec (w mod 2 ^ 32) (2 ^ 31)); lia.
Qed.

Lemma signed32_wrap32 y : - 2 ^ 31 <= y < 2 ^ 31 -> signed32 (wrap32 y) = y.
Proof.
  intros Hy. unfold signed32, wrap32. rewrite Z.mod_mod by lia.
  destruct (Z_lt_le_dec y 0) as [Hneg|Hpos].
  - assert (y mod 2 ^ 32 = y + 2 ^ 32) as ->.
    { symmetry. apply (Z.mod_unique_pos y (2 ^ 32) (-1)); lia. }
    destruct (Z.ltb_spec (y + 2 ^ 32) (2 ^ 31)); lia.
  - rewrite Z.mod_small by lia.
    destruct (Z.ltb_spec y (2 ^ 31)); lia.
Qed.

(** With a coefficient between 0 and 1 the s16.15 product does not
    overflow and rounds down. *)
Lemma accum_mul_rounds_down d :
  0 <= signed32 d <= 2 ^ 15 -> rounds_down accum_mul d.
Proof.
  intros Hd a. unfold accum_mul. rewrite Z.shiftr_div_pow2 by lia.
  apply signed32_wrap32.
  pose proof (signed32_range a) as Ha.
  set (x := signed32 a) in *. set (c := signed32 d) in *.
  split.
  - apply Z.div_le_lower_bound; [lia|]. nia.
  - apply Z.div_lt_upper_bound; [lia|]. nia.
Qed.

(** The rounding tolerance of the decay: after [k] products by a
    coefficient [d] between 0 and 1 the value [x_k] lies at most [k] units of
    2^-15 below the real number [v0 * d^k], and never above it.  Scaled by
    2^(15 k): [x_k * 2^(15 k) <= v0 * d^k <= (x_k + k) * 2^(15 k)]. *)
Lemma decay_tolerance (fmul : Z -> Z -> Z) v0 d k :
  0 <= signed32 d <= 2 ^ 15 -> rounds_down fmul d ->
  let x_k := signed32 (Nat.iter k (fun v => fmul v d) v0) in
  x_k * (2 ^ 15) ^ Z.of_nat k <= signed32 v0 * signed32 d ^ Z.of_nat k
  /\ signed32 v0 * signed32 d ^ Z.of_nat k
     <= (x_k + Z.of_nat k) * (2 ^ 15) ^ Z.of_nat k.
Proof.
  intros Hd Hround. induction k as [|k IH].
  - simpl. lia.
  - cbn zeta in *. rewrite Nat2Z.inj_succ, !Z.pow_succ_r by lia.
    change (Nat.iter (S k) (fun v => fmul v d) v0)
      with (fmul (Nat.iter k (fun v => fmul v d) v0) d).
    rewrite Hround.
    set (x := signed32 (Nat.iter k (fun v => fmul v d) v0)) in *.
    set (c := signed32 d) in *. set (x0 := signed32 v0) in *.
    set (S := (2 ^ 15) ^ Z.of_nat k) in *. set (C := c ^ Z.of_nat k) in *.
    assert (0 <= S) by (unfold S; apply Z.pow_nonneg; lia).
    pose proof (Z.mul_div_le (x * c) (2 ^ 15) ltac:(lia)) as Hlo.
    pose proof (Z.mul_succ_div_gt (x * c) (2 ^ 15) ltac:(lia)) as Hhi.
    set (q := x * c / 2 ^ 15) in *.
    destruct IH as [IH1 IH2]. split.
    + transitivity (x * c * S); [nia|]. nia.
    + transitivity (c * ((x + Z.of_nat k) * S)); [nia|]. nia.
Qed.

(** ** Consecutive steps *)

Lemma steps_Done_iterate (fmul : Z -> Z -> Z) address n_neurons f n p :
  Z.of_nat n < n_neurons ->
  forall k s v0 s_k,
    ready address n_neurons s ->
    state_at s f n = Some v0 -> params_at s f = Some p ->
    steps fmul k n_neurons s = Done tt s_k ->
    state_at s_k f n = Some (Nat.iter k (fun v => fmul v (filter p)) v0).
Proof.
  intros Hn. induction k as [|k IH]; intros s v0 s_k R Hv Hp Hrun; simpl in Hrun.
  - by injection Hrun as <-.
  - apply bind_Done_inv in Hrun as ([] & s1 & H1 & Hrest).
    destruct (step_Done_ready fmul address n_neurons s _ s1 R H1) as (R1 & Fr & Hst).
    assert (state_at s1 f n = Some (fmul v0 (filter p))) as Hv1.
    { rewrite Hst. unfold decayed. rewrite decide_True by lia. by rewrite Hv, Hp. }
    assert (params_at s1 f = Some p) as Hp1.
    { destruct Fr as (_ & _ & _ & _ & _ & _ & Hparams). by rewrite Hparams. }
    by rewrite (IH s1 _ s_k R1 Hv1 Hp1 Hrest), Nat.iter_succ_r.
Qed.

Lemma steps_return (fmul : Z -> Z -> Z) address n_neurons :
  vector_fits n_neurons ->
  forall k s, ready address n_neurons s ->
    exists s_k, steps fmul k n_neurons s = Done tt s_k.
Proof.
  intros Hfits. pose proof (vector_fits_cells n_neurons Hfits) as Hcells.
  induction k as [|k IH]; intros s R.
  - by exists s.
  - destruct (step_ready fmul address n_neurons s n_neurons R)
      as (s1 & E & R1 & _); [intros _; lia|].
    destruct (IH s1 R1) as (s_k & Ek). exists s_k.
    simpl. by rewrite (bind_Done _ _ _ _ _ E).
Qed.

(** ** The worked configuration *)

(** The scenario of the specification: one step takes 10, 20, 30 to 5, 10, 15
    with decay 0.5 and to just under 9, 18, 27 with decay 0.9. *)
Example ex_step_scenario :
  exists s',
    filtered_activity_step accum_mul 3 ex_loaded = Done tt s'
    /\ (state_at s' 0 <$> [0; 1; 2]%nat) = [Some 163840; Some 327680; Some 491520]
    /\ (state_at s' 1 <$> [0; 1; 2]%nat) = [Some 294910; Some 589820; Some 884730].
Proof. eexists. split; [vm_compute; reflexivity|]. split; vm_compute; reflexivity. Qed.

(** ** The closed form of filtered_activity_initialise *)

Lemma heap_lookup_params {A} (m0 : list A) p q v :
  (m0 ++ p :: q :: v) !! length m0 = Some p.
Proof. by rewrite list_lookup_middle. Qed.

Lemma heap_lookup_acts {A} (m0 : list A) p q v :
  (m0 ++ p :: q :: v) !! (length m0 + 1)%nat = Some q.
Proof. rewrite lookup_app_r by lia. by replace (length m0 + 1 - length m0)%nat with 1%nat by lia. Qed.

Lemma heap_lookup_vector {A} (m0 : list A) p q v i :
  (m0 ++ p :: q :: v) !! (length m0 + 2 + i)%nat = v !! i.
Proof.
  rewrite lookup_app_r by lia.
  by replace (length m0 + 2 + i - length m0)%nat with (S (S i)) by lia.
Qed.

Lemma heap_insert_params {A} (m0 : list A) p q v p' :
  <[length m0 := p']> (m0 ++ p :: q :: v) = m0 ++ p' :: q :: v.
Proof.
  replace (length m0) with (length m0 + 0)%nat at 1 by lia.
  by rewrite insert_app_r.
Qed.

Lemma heap_insert_acts {A} (m0 : list A) p q v q' :
  <[(length m0 + 1)%nat := q']> (m0 ++ p :: q :: v) = m0 ++ p :: q' :: v.
Proof. by rewrite insert_app_r. Qed.

Lemma heap_insert_vector {A} (m0 : list A) p q v i x :
  <[(length m0 + 2 + i)%nat := x]> (m0 ++ p :: q :: v) = m0 ++ p :: q :: <[i := x]> v.
Proof.
  replace (length m0 + 2 + i)%nat with (length m0 + S (S i))%nat by lia.
  by rewrite insert_app_r.
Qed.

Lemma vectors_snoc {A} (n : nat) (z y : A) :
  <[n := z]> (replicate n z ++ [y]) = replicate (S n) z.
Proof.
  rewrite replicate_S_end.
  replace n with (length (replicate n z) + 0)%nat at 1
    by (rewrite length_replicate; lia).
  by rewrite insert_app_r.
Qed.

Lemma ptr_cells_insert rows t rest v :
  <[length rows := v]> (ptr_cells rows ++ t :: rest) = ptr_cells rows ++ v :: rest.
Proof.
  replace (length rows) with (length (ptr_cells rows) + 0)%nat
    by (rewrite ptr_cells_length; lia).
  by rewrite insert_app_r.
Qed.

Lemma param_words_lookup address k :
  (k < 2 * Z.to_nat (num_filters address))%nat ->
  param_words address !! k = address !! S k.
Proof.
  intros Hk. unfold param_words. rewrite lookup_take_lt by lia.
  by rewrite lookup_drop.
Qed.

Lemma grants_cons_true fut : grants (true :: fut) = S (grants fut).
Proof. done. Qed.

Lemma grants_take fut n :
  (n <= grants fut)%nat <-> take n fut = replicate n true.
Proof.
  revert n. induction fut as [|[] fut IH]; intros [|n]; cbn; try done.
  all: try (split; [lia|done]).
  - split; [done|lia].
  - split.
    + intros Hle. f_equal. apply IH. lia.
    + intros [= Heq]. apply IH in Heq. lia.
Qed.

Lemma fill_outcome_granted address n_neurons m0 count : forall i fut tr,
  (count <= grants fut)%nat ->
  fill_outcome address n_neurons m0 i count fut tr
  = (true,
     loop_state address n_neurons m0 (i + count) [] (drop count fut)
       (rev (vector_log address n_neurons (length m0) i count) ++ tr)).
Proof.
  induction count as [|c IH]; intros i fut tr Hg.
  - cbn. by rewrite Nat.add_0_r.
  - destruct fut as [|[] fut]; cbn in Hg; [lia| |lia].
    cbn [fill_outcome]. rewrite IH by lia.
    unfold vector_log. cbn [seq flat_map app rev drop].
    rewrite <- !app_assoc. cbn [app].
    by replace (S i + c)%nat with (i + S c)%nat by lia.
Qed.

Lemma fill_outcome_refused address n_neurons m0 count : forall i fut tr,
  (grants fut < count)%nat ->
  fill_outcome address n_neurons m0 i count fut tr
  = (false,
     loop_state address n_neurons m0 (i + grants fut)
       (Vptr NULL :: replicate (count - S (grants fut)) Vundef)
       (drop (S (grants fut)) fut)
       (EvMalloc (vector_bytes n_neurons) NULL
        :: filter_line address (i + grants fut)
        :: rev (vector_log address n_neurons (length m0) i (grants fut)) ++ tr)).
Proof.
  induction count as [|c IH]; intros i fut tr Hg; [lia|].
  destruct fut as [|[] fut]; cbn [fill_outcome grants].
  - cbn. by rewrite Nat.add_0_r, Nat.sub_0_r.
  - cbn in Hg. rewrite IH by lia.
    unfold vector_log. cbn [seq flat_map app rev drop].
    rewrite <- !app_assoc. cbn [app].
    replace (S i + grants fut)%nat with (i + S (grants fut))%nat by lia.
    by replace (S c - S (S (grants fut)))%nat with (c - S (grants fut))%nat by lia.
  - cbn. by rewrite Nat.add_0_r, Nat.sub_0_r.
Qed.

Section ClosedForm.
Variables (address : list Z) (n_neurons : Z).
Hypothesis Hholds : holds_records address.

Lemma loop_state_read_params m0 i slots fut tr :
  (i < Z.to_nat (num_filters address))%nat ->
  read_word (loop_state address n_neurons m0 i slots fut tr) (Some (length m0))
    (filter_offset i)
  = Some (default 0 (address !! (1 + 2 * i)%nat))
  /\ read_word (loop_state address n_neurons m0 i slots fut tr) (Some (length m0))
       (n_filter_offset i)
     = Some (default 0 (address !! (2 + 2 * i)%nat)).
Proof using Hholds.
  intros Hi. pose proof (param_words_length address Hholds) as Hlen.
  destruct (lookup_lt_is_Some_2 (param_words address) (filter_offset i))
    as [d Hd]; [unfold filter_offset; lia|].
  destruct (lookup_lt_is_Some_2 (param_words address) (n_filter_offset i))
    as [nd Hnd]; [unfold n_filter_offset; lia|].
  pose proof Hd as Hd'. pose proof Hnd as Hnd'.
  rewrite param_words_lookup in Hd' by (unfold filter_offset; lia).
  rewrite param_words_lookup in Hnd' by (unfold n_filter_offset; lia).
  unfold filter_offset in Hd'. unfold n_filter_offset in Hnd'.
  replace (1 + 2 * i)%nat with (S (2 * i)) by lia.
  replace (2 + 2 * i)%nat with (S (2 * i + 1)) by lia.
  rewrite Hd', Hnd'.
  unfold read_word, read_cell, loop_state. proj.
  rewrite heap_lookup_params.
  unfold word_cells. by rewrite !list_lookup_fmap, Hd, Hnd.
Qed.

Lemma fill_refines m0 count : forall i fut tr,
  (i + count)%nat = Z.to_nat (num_filters address) ->
  initialise_filters n_neurons i count (ret true)
    (loop_state address n_neurons m0 i (replicate count Vundef) fut tr)
  = Done (fill_outcome address n_neurons m0 i count fut tr).1
         (fill_outcome address n_neurons m0 i count fut tr).2.
Proof using Hholds.
  induction count as [|c IH]; intros i fut tr Hic; [done|].
  destruct (loop_state_read_params m0 i (replicate (S c) Vundef) fut tr)
    as [Hd Hnd]; [lia|].
  cbn [initialise_filters fill_outcome].
  rewrite (bind_Done (gets _) _ _ _ _ eq_refl).
  unfold loop_state at 1. proj.
  rewrite (bind_Done _ _ _ _ _ (load_word_Done _ _ _ _ Hd)).
  rewrite (bind_Done _ _ _ _ _ (load_word_Done _ _ _ _ Hnd)).
  rewrite (bind_Done (io_printf _) _ _ tt _ eq_refl).
  fold (filter_line address i).
  unfold MALLOC_FAIL_FALSE, io_printf, modify, loop_state. proj.
  set (P := word_cells (param_words address)).
  set (V := replicate i (replicate (vector_cells n_neurons) (Vword 0))).
  assert (i < length (ptr_cells (seq (length m0 + 2) i) ++ replicate (S c) Vundef))%nat
    as Hi.
  { rewrite length_app, ptr_cells_length, length_seq. simpl. lia. }
  pose proof (ptr_cells_insert (seq (length m0 + 2) i) Vundef (replicate c Vundef))
    as Hins.
  rewrite length_seq in Hins.
  change (replicate (S c) Vundef) with (Vundef :: replicate c Vundef) in *.
  assert ((exists fut', fut = true :: fut') \/ (forall fut', fut <> true :: fut'))
    as [[fut' ->]|Hno] by (destruct fut as [|[] ?]; [by right|left; by eexists|by right]).
  - erewrite (bind_Done (spin1_malloc _)) by (by apply spin1_malloc_granted).
    proj.
    replace (length (m0 ++ P :: (ptr_cells (seq (length m0 + 2) i)
                                  ++ Vundef :: replicate c Vundef) :: V))
      with (length m0 + 2 + i)%nat
      by (rewrite length_app; cbn [length]; unfold V;
          rewrite length_replicate; lia).
    rewrite <- app_assoc. cbn [app].
    erewrite (bind_Done (bind _ _)).
    2:{ rewrite (bind_Done (gets _) _ _ _ _ eq_refl). proj.
        apply store_Done with
          (cells := ptr_cells (seq (length m0 + 2) i) ++ Vundef :: replicate c Vundef);
          [apply heap_lookup_acts|exact Hi]. }
    cbv [set_mem]. proj. rewrite heap_insert_acts, Hins.
    replace (ptr_cells (seq (length m0 + 2) i)
             ++ Vptr (Some (length m0 + 2 + i)%nat) :: replicate c Vundef)
      with (ptr_cells (seq (length m0 + 2) (S i)) ++ replicate c Vundef)
      by (rewrite seq_S; unfold ptr_cells; by rewrite fmap_app, <- app_assoc).
    rewrite (bind_Done (gets _) _ _ _ _ eq_refl). proj.
    erewrite (bind_Done (load_ptr _ _)).
    2:{ apply load_ptr_Done. unfold read_ptr, read_cell. proj.
        rewrite heap_lookup_acts.
        rewrite lookup_app_l by (rewrite ptr_cells_length, length_seq; lia).
        unfold ptr_cells. by rewrite list_lookup_fmap, lookup_seq_lt by lia. }
    erewrite (bind_Done (memset_zero _ _)).
    2:{ apply memset_zero_Done with
          (cells := replicate (vector_cells n_neurons) Vundef).
        - proj. rewrite heap_lookup_vector.
          apply list_lookup_middle. unfold V. by rewrite length_replicate.
        - by rewrite length_replicate. }
    cbv [set_mem]. proj. rewrite heap_insert_vector.
    change (cells_of (wrap32 (n_neurons * sizeof_value_t)))
      with (vector_cells n_neurons).
    unfold V. rewrite vectors_snoc.
    apply (IH (S i)). lia.
  - erewrite (bind_Done (spin1_malloc _)).
    2:{ apply spin1_malloc_refused. proj. exact Hno. }
    proj.
    erewrite (bind_Done (bind _ _)).
    2:{ rewrite (bind_Done (gets _) _ _ _ _ eq_refl). proj.
        apply store_Done with
          (cells := ptr_cells (seq (length m0 + 2) i) ++ Vundef :: replicate c Vundef);
          [apply heap_lookup_acts|exact Hi]. }
    cbv [set_mem]. proj. rewrite heap_insert_acts, Hins.
    destruct fut as [|[] fut]; [done| |done].
    by destruct (Hno fut).
Qed.

Lemma initialise_refines s0 :
  filtered_activity_initialise address n_neurons s0
  = Done (initialise_outcome address n_neurons s0).1
         (initialise_outcome address n_neurons s0).2.
Proof using Hholds.
  pose proof (holds_records_word0 _ Hholds) as H0.
  pose proof (holds_records_bound _ Hholds) as Hbound.
  pose proof Hholds as (_ & Hnn & Hrec & _).
  unfold filtered_activity_initialise, initialise_outcome.
  set (F := num_filters address) in *.
  rewrite H0. cbn [of_option].
  rewrite (bind_Done (ret _) _ _ _ _ eq_refl).
  rewrite (bind_Done (modify _) _ _ tt _ eq_refl).
  rewrite (bind_Done (gets _) _ _ _ _ eq_refl). proj.
  rewrite (bind_Done (io_printf _) _ _ tt _ eq_refl).
  destruct s0 as [num0 acts0 params0 m0 fut tr0]. proj.
  destruct (0 <? F) eqn:Hpos; [|done].
  apply Z.ltb_lt in Hpos.
  unfold MALLOC_FAIL_FALSE.
  destruct fut as [|[] fut]; [done| |done].
  erewrite (bind_Done (spin1_malloc _)) by (by apply spin1_malloc_granted).
  proj.
  rewrite (bind_Done (modify _) _ _ tt _ eq_refl). proj.
  set (plen := cells_of (wrap32 (F * sizeof_activity_filter_parameters_t))).
  set (qlen := cells_of (wrap32 (F * sizeof_value_ptr))).
  assert (plen = 2 * Z.to_nat F)%nat as Hplen.
  { unfold plen, sizeof_activity_filter_parameters_t.
    change 8 with (4 * 2). rewrite (cells_of_wrap32 2 F) by lia. lia. }
  assert (qlen = Z.to_nat F) as Hqlen.
  { unfold qlen, sizeof_value_ptr.
    change 4 with (4 * 1) at 1. rewrite (cells_of_wrap32 1 F) by lia. lia. }
  destruct fut as [|[] fut]; [done| |done].
  erewrite (bind_Done (spin1_malloc _)) by (by apply spin1_malloc_granted).
  proj.
  rewrite (bind_Done (modify _) _ _ tt _ eq_refl). proj.
  rewrite (bind_Done (gets _) _ _ _ _ eq_refl). proj.
  rewrite length_app. cbn [length].
  rewrite <- app_assoc. cbn [app].
  erewrite (bind_Done (memcpy _ _ _)).
  2:{ apply memcpy_Done with (cells := replicate plen Vundef).
      - proj. apply list_lookup_middle. done.
      - by rewrite length_replicate.
      - fold plen. rewrite length_drop. lia. }
  cbv [set_mem]. proj.
  replace (length m0) with (length m0 + 0)%nat at 3 by lia.
  rewrite insert_app_r. cbn [insert list_insert]. fold plen qlen.
  rewrite Hplen, Hqlen. fold (param_words address).
  apply (fill_refines m0 (Z.to_nat F) 0%nat). done.
Qed.

Lemma initialise_granted s0 :
  0 < num_filters address ->
  (2 + Z.to_nat (num_filters address) <= grants (future s0))%nat ->
  filtered_activity_initialise address n_neurons s0
  = Done true
      (loop_state address n_neurons (mem s0) (Z.to_nat (num_filters address)) []
         (drop (2 + Z.to_nat (num_filters address)) (future s0))
         (rev (full_log address n_neurons (length (mem s0))) ++ trace s0)).
Proof using Hholds.
  intros Hpos Hg. rewrite initialise_refines. unfold initialise_outcome.
  apply Z.ltb_lt in Hpos. rewrite Hpos.
  destruct (future s0) as [|[] [|[] fut]]; cbn in Hg; try lia.
  cbn [grants] in Hg.
  rewrite fill_outcome_granted by lia. cbn [fst snd].
  unfold full_log. cbn [rev drop]. rewrite <- !app_assoc. done.
Qed.

Lemma initialise_refused s0 :
  0 < num_filters address ->
  (grants (future s0) < 2 + Z.to_nat (num_filters address))%nat ->
  exists s,
    filtered_activity_initialise address n_neurons s0 = Done false s
    /\ g_num_activity_filters s = num_filters address
    /\ future s = drop (S (grants (future s0))) (future s0)
    /\ ((grants (future s0) = 0%nat
         /\ g_activity_filter_params s = NULL /\ mem s = mem s0)
        \/ (grants (future s0) = 1%nat
            /\ g_filtered_activities s = NULL
            /\ mem s = mem s0 ++ [replicate
                 (cells_of (wrap32 (num_filters address
                                    * sizeof_activity_filter_parameters_t)))
                 Vundef])
        \/ exists i c tr,
             grants (future s0) = (2 + i)%nat
             /\ (i + S c)%nat = Z.to_nat (num_filters address)
             /\ s = loop_state address n_neurons (mem s0) i
                      (Vptr NULL :: replicate c Vundef)
                      (drop (S (grants (future s0))) (future s0)) tr).
Proof using Hholds.
  intros Hpos Hg. rewrite initialise_refines. unfold initialise_outcome.
  apply Z.ltb_lt in Hpos. rewrite Hpos.
  destruct (future s0) as [|[] fut1]; cbn [grants] in *.
  1,3: (eexists; split; [reflexivity|]; proj; repeat split; by left).
  destruct fut1 as [|[] fut]; cbn [grants] in *.
  1,3: (eexists; split; [reflexivity|]; proj; repeat split; right; by left).
  rewrite fill_outcome_refused by lia. cbn [fst snd].
  eexists. split; [reflexivity|]. split; [done|]. split; [done|].
  right. right.
  exists (grants fut), (Z.to_nat (num_filters address) - S (grants fut))%nat.
  eexists. split; [done|]. split; [lia|]. reflexivity.
Qed.

Lemma initialise_Done_true s0 s :
  0 < num_filters address ->
  filtered_activity_initialise address n_neurons s0 = Done true s ->
  (2 + Z.to_nat (num_filters address) <= grants (future s0))%nat
  /\ s = loop_state address n_neurons (mem s0) (Z.to_nat (num_filters address)) []
           (drop (2 + Z.to_nat (num_filters address)) (future s0))
           (rev (full_log address n_neurons (length (mem s0))) ++ trace s0).
Proof using Hholds.
  intros Hpos E.
  destruct (le_lt_dec (2 + Z.to_nat (num_filters address)) (grants (future s0)))
    as [Hg|Hg].
  - rewrite (initialise_granted s0 Hpos Hg) in E. by injection E as <-.
  - destruct (initialise_refused s0 Hpos Hg) as (s' & E' & _).
    rewrite E' in E. done.
Qed.

Lemma initialise_Done_false s0 s :
  filtered_activity_initialise address n_neurons s0 = Done false s ->
  0 < num_filters address
  /\ (grants (future s0) < 2 + Z.to_nat (num_filters address))%nat.
Proof using Hholds.
  intros E.
  assert (0 < num_filters address) as Hpos.
  { destruct (Z.ltb_spec 0 (num_filters address)) as [|Hle]; [done|].
    rewrite initialise_refines in E. unfold initialise_outcome in E.
    apply Z.ltb_ge in Hle. rewrite Hle in E. done. }
  split; [done|].
  destruct (le_lt_dec (2 + Z.to_nat (num_filters address)) (grants (future s0)))
    as [Hg|Hg]; [|done].
  rewrite (initialise_granted s0 Hpos Hg) in E. done.
Qed.

Lemma loop_state_bank m0 fut tr :
  bank (loop_state address n_neurons m0 (Z.to_nat (num_filters address)) [] fut tr)
       (length m0) (length m0 + 1)
       (seq (length m0 + 2) (Z.to_nat (num_filters address)))
       (param_words address)
       (replicate (Z.to_nat (num_filters address))
                  (replicate (vector_cells n_neurons) 0)).
Proof using Hholds.
  pose proof Hholds as (_ & Hnn & _).
  unfold loop_state. split; proj.
  - rewrite length_seq. lia.
  - done.
  - done.
  - apply heap_lookup_params.
  - rewrite (param_words_length _ Hholds), length_seq. done.
  - by rewrite heap_lookup_acts, app_nil_r.
  - apply NoDup_cons. split.
    { rewrite elem_of_cons, elem_of_seq. lia. }
    apply NoDup_cons. split; [rewrite elem_of_seq; lia|apply NoDup_seq].
  - apply Forall2_same_length_lookup. split.
    { by rewrite length_seq, length_replicate. }
    intros j b v Hb Hv.
    apply lookup_seq in Hb as [-> Hj].
    apply lookup_replicate in Hv as [-> _].
    rewrite heap_lookup_vector, lookup_replicate_2 by done.
    unfold word_cells. by rewrite fmap_replicate.
Qed.

End ClosedForm.

(** ** Loops that do not return *)

Lemma for_range_Undefined (body : nat -> M unit) (P : machine -> Prop) j :
  (forall i s s', P s -> body i s = Done tt s' -> P s') ->
  (forall s, P s -> body j s = Undefined) ->
  forall count i s, P s -> (i <= j < i + count)%nat ->
    for_range i count body s = Undefined.
Proof.
  intros Hkeep Hund. induction count as [|c IH]; intros i s HP Hj; [lia|].
  cbn [for_range]. unfold bind.
  destruct (body i s) as [|[] s1] eqn:E; [done|].
  destruct (decide (i = j)) as [->|Hne].
  - by rewrite (Hund s HP) in E.
  - apply IH; [by eapply Hkeep|lia].
Qed.

Lemma null_row_read q rows c s f p :
  null_row q rows c s ->
  read_ptr s (g_filtered_activities s) f = Some p ->
  (f = length rows /\ p = NULL) \/ (exists b, p = Some b /\ b ∈ rows).
Proof.
  intros [Ha Hq]. unfold read_ptr, read_cell. rewrite Ha, Hq.
  destruct (lt_eq_lt_dec f (length rows)) as [[Hlt| ->]|Hgt].
  - rewrite lookup_app_l by (by rewrite ptr_cells_length).
    unfold ptr_cells. rewrite list_lookup_fmap.
    destruct (rows !! f) as [b|] eqn:Hb; cbn; [|done].
    intros [= <-]. right. exists b. split; [done|].
    by eapply list_elem_of_lookup_2.
  - rewrite list_lookup_middle by (by rewrite ptr_cells_length).
    intros [= <-]. by left.
  - rewrite lookup_app_r by (rewrite ptr_cells_length; lia).
    rewrite ptr_cells_length.
    destruct (f - length rows)%nat as [|k] eqn:Hk; [lia|]. cbn.
    destruct (replicate c Vundef !! k) as [y|] eqn:Hy; [|done].
    apply lookup_replicate in Hy as [-> _]. done.
Qed.

Section StepUndefined.
Variable fmul : Z -> Z -> Z.

Lemma step_Undefined (P : machine -> Prop) j s n :
  0 < n -> (j < Z.to_nat (g_num_activity_filters s))%nat -> P s ->
  (forall f i s1 s2, P s1 -> decay_entry fmul f i s1 = Done tt s2 -> P s2) ->
  (forall s1, P s1 -> decay_entry fmul j 0 s1 = Undefined) ->
  filtered_activity_step fmul n s = Undefined.
Proof.
  intros Hn Hj HP Hkeep Hund. unfold filtered_activity_step.
  rewrite (bind_Done (gets _) _ _ _ _ eq_refl).
  apply for_range_Undefined with (P := P) (j := j); [| |done|lia].
  - intros f s1 s2 HP1 Hrun.
    by destruct (for_range_Done (decay_entry fmul f) P (fun _ => True)
                   (fun i s3 s4 HP3 E => conj (Hkeep f i s3 s4 HP3 E) I)
                   _ _ _ _ HP1 Hrun) as [HP2 _].
  - intros s1 HP1. destruct (Z.to_nat n) eqn:En; [lia|].
    cbn [for_range]. unfold bind. by rewrite Hund.
Qed.

Lemma decay_entry_no_params f i s :
  g_activity_filter_params s = NULL -> decay_entry fmul f i s = Undefined.
Proof.
  intros Hp. unfold decay_entry, bind, gets, load_ptr, load_word.
  destruct (read_ptr s (g_filtered_activities s) f) as [row|]; [|done]. cbn.
  destruct (read_word s row i); [|done]. cbn. by rewrite Hp.
Qed.

Lemma decay_entry_no_acts f i s :
  g_filtered_activities s = NULL -> decay_entry fmul f i s = Undefined.
Proof.
  intros Ha. unfold decay_entry, bind, gets, load_ptr. by rewrite Ha.
Qed.

Lemma decay_entry_null_row q rows c f i s s' :
  q ∉ rows -> null_row q rows c s ->
  decay_entry fmul f i s = Done tt s' -> null_row q rows c s'.
Proof.
  intros Hq N E. unfold decay_entry in E.
  apply bind_Done_inv in E as (acts & s1 & Eg & E).
  unfold gets in Eg. injection Eg as <- <-.
  apply bind_Done_inv in E as (row & s1 & El & E).
  apply load_ptr_inv in El as [-> Hrow].
  apply bind_Done_inv in E as (v & s1 & El & E).
  apply load_word_inv in El as [-> Hv].
  apply bind_Done_inv in E as (params & s1 & Eg & E).
  unfold gets in Eg. injection Eg as <- <-.
  apply bind_Done_inv in E as (d & s1 & El & E).
  apply load_word_inv in El as [-> Hd].
  destruct (null_row_read _ _ _ _ _ _ N Hrow) as [[-> ->]|(b & -> & Hb)]; [done|].
  unfold store in E. destruct (mem s !! b) as [cells|]; [|done].
  case_decide; [|done]. injection E as <-.
  destruct N as [Ha Hm]. split; proj; [done|].
  rewrite list_lookup_insert_ne; [done|]. by intros ->.
Qed.

Lemma decay_entry_at_null_row q rows c i s :
  null_row q rows c s -> decay_entry fmul (length rows) i s = Undefined.
Proof.
  intros [Ha Hq].
  unfold decay_entry, bind, gets, load_ptr, load_word, read_ptr, read_cell.
  rewrite Ha, Hq, list_lookup_middle by (by rewrite ptr_cells_length). done.
Qed.

End StepUndefined.

(** ** The worked configuration *)

Lemma ex_address_holds : holds_records ex_address.
Proof. repeat split; vm_compute; (lia || done). Qed.

(** ** Calls of filtered_activity_step on a bank of zeroes *)

Section ZeroBank.
Variable fmul : Z -> Z -> Z.
Variables (address : list Z) (n_neurons : Z) (fut : list bool) (s : machine).
Hypothesis Hzero : forall d, fmul 0 d = 0.
Hypothesis Hinit :
  filtered_activity_initialise address n_neurons (boot fut) = Done true s.

Lemma step_calls_zero ns : forall s1 s',
  ready address n_neurons s1 ->
  (forall f i, state_at s1 f i = state_at s f i) ->
  (forall f, params_at s1 f = params_at s f) ->
  step_calls fmul ns s1 = Done tt s' ->
  forall f i, state_at s' f i = state_at s f i.
Proof using Hzero Hinit.
  induction ns as [|n ns IH]; intros s1 s' R Hst Hpar Hrun; simpl in Hrun.
  - by injection Hrun as <-.
  - apply bind_Done_inv in Hrun as ([] & s2 & E & Hrest).
    destruct (step_Done_ready fmul address n_neurons s1 n s2 R E)
      as (R2 & Fr & Hdec).
    apply (IH s2 s' R2); [| |exact Hrest].
    + intros f i. rewrite Hdec. unfold decayed.
      case_decide; [|apply Hst].
      rewrite Hst, Hpar, (initialise_state_at address n_neurons fut s Hinit).
      case_decide as Hin; [|done].
      destruct (initialise_params_at address n_neurons fut s Hinit f)
        as (d & nd & _ & _ & ->); [lia|].
      cbn. by rewrite Hzero.
    + intros f. destruct Fr as (_ & _ & _ & _ & _ & _ & Hp). by rewrite Hp.
Qed.

End ZeroBank.

Lemma step_calls_return (fmul : Z -> Z -> Z) address n_neurons ns : forall s,
  ready address n_neurons s ->
  Forall (fun n => (Z.to_nat n <= vector_cells n_neurons)%nat) ns ->
  exists s', step_calls fmul ns s = Done tt s'.
Proof.
  induction ns as [|n ns IH]; intros s R Hns.
  - by exists s.
  - apply Forall_cons in Hns as [Hn Hns].
    destruct (step_ready fmul address n_neurons s n R) as (s1 & E & R1 & _);
      [done|].
    destruct (IH s1 R1 Hns) as (s' & E'). exists s'.
    simpl. by rewrite (bind_Done _ _ _ _ _ E).
Qed.

(** ** The bank of one filter and 2^30 + 1 neurons

    The vector of the bank has one entry (example [ex_wrapped]); a call of
    step with the neuron count of the ensemble leaves it at entry 1. *)

Lemma ex_wrapped_initialised (fmul : Z -> Z -> Z) :
  initialised fmul ex_one_filter (2 ^ 30 + 1) ex_wrapped.
Proof.
  exists [true; true; true], [], ex_wrapped.
  split; [vm_compute; reflexivity|reflexivity].
Qed.

Lemma ex_wrapped_step (fmul : Z -> Z -> Z) :
  filtered_activity_step fmul (2 ^ 30 + 1) ex_wrapped = Undefined.
Proof.
  destruct (filtered_activity_step fmul (2 ^ 30 + 1) ex_wrapped)
    as [|[] s'] eqn:E; [done|].
  pose proof (initialised_ready fmul _ _ _ (ex_wrapped_initialised fmul)) as R.
  assert (0 < num_filters ex_one_filter) as Hpos by (vm_compute; reflexivity).
  pose proof (step_Done_bound fmul _ _ _ _ _ R Hpos E) as Hb.
  assert (vector_cells (2 ^ 30 + 1) = 1%nat) as Hc by (vm_compute; reflexivity).
  rewrite Hc in Hb. lia.
Qed.

(** * The claims *)

(** C1 as stated fails, whatever the product of value_t: on the bank of
    one filter and 2^30 + 1 neurons, whose vector has one entry because the
    byte count wrapped to 4, the call of step with the neuron count of the
    ensemble runs its inner loop beyond the vector and does not return with
    a state: entry state[0][1] is not there to be multiplied. *)
Lemma step_product_wraps :
  ~ (exists fmul : Z -> Z -> Z,
       forall address n_neurons s,
         0 <= n_neurons < 2 ^ 32 ->
         initialised fmul address n_neurons s ->
         exists s',
           filtered_activity_step fmul n_neurons s = Done tt s'
           /\ (forall f i,
                 Z.of_nat f < num_filters address -> Z.of_nat i < n_neurons ->
                 exists v p,
                   state_at s f i = Some v /\ params_at s f = Some p
                   /\ state_at s' f i = Some (fmul v (filter p)))
           /\ (forall f i,
                 ~ (Z.of_nat f < num_filters address /\ Z.of_nat i < n_neurons) ->
                 state_at s' f i = state_at s f i)).
Proof.
  intros (fmul & H).
  destruct (H ex_one_filter (2 ^ 30 + 1) ex_wrapped ltac:(lia)
              (ex_wrapped_initialised fmul)) as (s' & E & _).
  by rewrite ex_wrapped_step in E.
Qed.

(** C1, amended: after a successful initialise, when there is no filter or
    the byte count n_neurons * sizeof(value_t) of a vector does not wrap
    (n_neurons < 2^30), the call of step with the neuron count of the
    ensemble returns; and every call of step that returns, whatever its
    argument n_neurons, has put in state[f][n], for every filter f below
    the filter count and every neuron n below n_neurons, the fixed-point
    product of the old value of state[f][n] and the filter (decay) field of
    filter f, and has updated nothing else. *)
Theorem step_multiplies_by_filter (fmul : Z -> Z -> Z) address n_neurons s :
  initialised fmul address n_neurons s ->
  (forall n s',
     filtered_activity_step fmul n s = Done tt s' ->
     (forall f i,
        Z.of_nat f < num_filters address -> Z.of_nat i < n ->
        exists v p,
          state_at s f i = Some v /\ params_at s f = Some p
          /\ state_at s' f i = Some (fmul v (filter p)))
     /\ (forall f i,
           ~ (Z.of_nat f < num_filters address /\ Z.of_nat i < n) ->
           state_at s' f i = state_at s f i)
     /\ frame s s')
  /\ ((0 < num_filters address -> vector_fits n_neurons) ->
      exists s', filtered_activity_step fmul n_neurons s = Done tt s').
Proof.
  intros Hinit.
  pose proof (initialised_ready fmul address n_neurons s Hinit) as R.
  split.
  - intros n s' Hrun.
    destruct (step_Done_ready fmul address n_neurons s n s' R Hrun) as (_ & Fr & Hst).
    split; [|split; [|done]].
    + intros f i Hf Hi.
      pose proof (step_Done_bound fmul address n_neurons s n s' R ltac:(lia) Hrun).
      destruct (ready_entry address n_neurons s f i R Hf) as (v & p & Hv & Hp); [lia|].
      exists v, p. split; [done|]. split; [done|].
      rewrite Hst. unfold decayed. rewrite decide_True by lia. by rewrite Hv, Hp.
    + intros f i Hout. rewrite Hst. unfold decayed.
      case_decide as Hi; [|done].
      destruct (state_at s f i) as [v|] eqn:Hv; [|done].
      destruct Hout. split; [by eapply ready_state_filter|lia].
  - intros Hfits.
    destruct (step_ready fmul address n_neurons s n_neurons R) as (s' & E & _).
    { intros Hpos. rewrite (vector_fits_cells n_neurons (Hfits Hpos)). lia. }
    by exists s'.
Qed.

Lemma step_multiplies_by_filter_witness :
  initialised accum_mul ex_address 3 ex_loaded
  /\ (forall n s',
        filtered_activity_step accum_mul n ex_loaded = Done tt s' ->
        (forall f i,
           Z.of_nat f < num_filters ex_address -> Z.of_nat i < n ->
           exists v p,
             state_at ex_loaded f i = Some v /\ params_at ex_loaded f = Some p
             /\ state_at s' f i = Some (accum_mul v (filter p)))
        /\ (forall f i,
              ~ (Z.of_nat f < num_filters ex_address /\ Z.of_nat i < n) ->
              state_at s' f i = state_at ex_loaded f i)
        /\ frame ex_loaded s')
  /\ ((0 < num_filters ex_address -> vector_fits 3) ->
      exists s', filtered_activity_step accum_mul 3 ex_loaded = Done tt s').
Proof.
  assert (initialised accum_mul ex_address 3 ex_loaded) as Hinit
    by (exists ex_future, ex_injections, ex_initialised;
        split; vm_compute; reflexivity).
  split; [exact Hinit|].
  exact (step_multiplies_by_filter accum_mul ex_address 3 ex_loaded Hinit).
Defined.

(** C2 as stated fails: with one filter and 2^30 + 1 neurons the byte count
    of a vector wraps to 4, initialise returns true with vectors of one
    entry, and state[0][1] is not there. *)
Lemma initialise_zero_fill_wraps :
  ~ (forall address n_neurons fut s,
       0 < num_filters address ->
       0 < n_neurons < 2 ^ 32 ->
       filtered_activity_initialise address n_neurons (boot fut) = Done true s ->
       forall f n,
         Z.of_nat f < num_filters address -> Z.of_nat n < n_neurons ->
         state_at s f n = Some 0).
Proof.
  intros H.
  pose (address := [1; 16384; 16384]).
  pose (s := outcome_state
               (filtered_activity_initialise address (2 ^ 30 + 1)
                  (boot [true; true; true]))).
  assert (state_at s 0 1 = Some 0) as Hzero.
  { apply (H address (2 ^ 30 + 1) [true; true; true] s).
    - unfold num_filters, address. simpl. lia.
    - lia.
    - vm_compute. reflexivity.
    - unfold num_filters, address. simpl. lia.
    - lia. }
  vm_compute in Hzero. discriminate Hzero.
Qed.

(** The state of that run: the two arrays and one vector of a single
    zeroed entry, for a request of 4 bytes. *)
Example ex_wrapped_vector :
  exists s,
    filtered_activity_initialise [1; 16384; 16384] (2 ^ 30 + 1)
      (boot [true; true; true]) = Done true s
    /\ mem s = [[Vword 16384; Vword 16384]; [Vptr (Some 2%nat)]; [Vword 0]]
    /\ head (trace s) = Some (EvMalloc 4 (Some 2%nat))
    /\ state_at s 0 0 = Some 0
    /\ state_at s 0 1 = None.
Proof. eexists. split; [vm_compute; reflexivity|]. by vm_compute. Qed.

(** C2, amended: for every configuration with at least one filter and every
    neuron count N > 0 whose vector byte count N * sizeof(value_t) does not
    wrap, after initialise has returned true state[f][n] is zero for every f
    below the filter count and every n below N. *)
Theorem initialise_zeroes_state address n_neurons fut s :
  0 < num_filters address ->
  0 < n_neurons -> vector_fits n_neurons ->
  filtered_activity_initialise address n_neurons (boot fut) = Done true s ->
  forall f n,
    Z.of_nat f < num_filters address -> Z.of_nat n < n_neurons ->
    state_at s f n = Some 0.
Proof.
  intros Hpos Hn Hfits Hinit f n Hf Hlt.
  rewrite (initialise_state_at address n_neurons fut s Hinit).
  rewrite (vector_fits_cells n_neurons Hfits).
  apply decide_True. lia.
Qed.

Lemma initialise_zeroes_state_witness :
  0 < num_filters ex_address /\ 0 < 3
  /\ vector_fits 3
  /\ filtered_activity_initialise ex_address 3 (boot ex_future)
     = Done true ex_initialised
  /\ forall f n,
       Z.of_nat f < num_filters ex_address -> Z.of_nat n < 3 ->
       state_at ex_initialised f n = Some 0.
Proof.
  assert (0 < num_filters ex_address) as Hpos by (vm_compute; reflexivity).
  assert (vector_fits 3) as Hfits by (unfold vector_fits, sizeof_value_t; lia).
  assert (filtered_activity_initialise ex_address 3 (boot ex_future)
          = Done true ex_initialised) as Hinit by (vm_compute; reflexivity).
  split; [exact Hpos|]. split; [lia|].
  split; [exact Hfits|]. split; [exact Hinit|].
  exact (initialise_zeroes_state ex_address 3 ex_future ex_initialised
           Hpos ltac:(lia) Hfits Hinit).
Defined.

(** C3: on a valid configuration region initialise returns false exactly
    when a request to the allocator is refused, and otherwise true (also with
    no filter, when nothing is requested); nothing is rolled back: every
    block granted before the refusal is still allocated with the size asked
    for, and the filter count read from the configuration stays set. *)
Theorem initialise_false_iff_refused address n_neurons fut :
  valid_config address ->
  exists b s,
    filtered_activity_initialise address n_neurons (boot fut) = Done b s
    /\ (b = false <-> alloc_failed s)
    /\ (b = true <-> ~ alloc_failed s)
    /\ alloc_log_ok s
    /\ g_num_activity_filters s = num_filters address.
Proof.
  intros Hvalid.
  destruct (initialise_spec address n_neurons fut (valid_config_holds _ Hvalid))
    as (b & s & E & Hnum & Hlog & Hpost).
  exists b, s. split; [done|]. destruct b.
  - destruct Hpost as (Hnf & _). repeat split; done.
  - repeat split; done.
Qed.

Lemma initialise_false_iff_refused_witness :
  valid_config ex_address
  /\ exists b s,
       filtered_activity_initialise ex_address 3 (boot [true; true; true; false])
       = Done b s
       /\ (b = false <-> alloc_failed s)
       /\ (b = true <-> ~ alloc_failed s)
       /\ alloc_log_ok s
       /\ g_num_activity_filters s = num_filters ex_address.
Proof.
  assert (valid_config ex_address) as Hvalid
    by (unfold valid_config, num_filters, ex_address; simpl; lia).
  split; [exact Hvalid|].
  exact (initialise_false_iff_refused ex_address 3 [true; true; true; false] Hvalid).
Defined.

(** The run of the witness above: the fourth request is refused; the
    function returns false, the first vector is still allocated and the
    filter count is 2. *)
Example ex_refused :
  exists s,
    filtered_activity_initialise ex_address 3 (boot [true; true; true; false])
    = Done false s
    /\ g_num_activity_filters s = 2
    /\ mem s !! 2%nat = Some [Vword 0; Vword 0; Vword 0]
    /\ read_ptr s (g_filtered_activities s) 1 = Some NULL.
Proof. eexists. split; [vm_compute; reflexivity|]. by vm_compute. Qed.

(** C4 as stated fails, whatever the product of value_t: on the bank of
    one filter and 2^30 + 1 neurons the entry state[0][0] is there and
    holds 0, but the vector has no second entry, and already one call of
    step with the neuron count of the ensemble does not return with a
    state: there is no value after k = 1 calls. *)
Lemma steps_iterate_wraps :
  ~ (exists fmul : Z -> Z -> Z,
       forall address n_neurons s f n v0 p k,
         0 <= n_neurons < 2 ^ 32 ->
         initialised fmul address n_neurons s ->
         Z.of_nat n < n_neurons ->
         state_at s f n = Some v0 ->
         params_at s f = Some p ->
         exists s_k,
           steps fmul k n_neurons s = Done tt s_k
           /\ state_at s_k f n
              = Some (Nat.iter k (fun v => fmul v (filter p)) v0)).
Proof.
  intros (fmul & H).
  destruct (H ex_one_filter (2 ^ 30 + 1) ex_wrapped 0%nat 0%nat 0
              (FilterParameters 16384 16384) 1%nat ltac:(lia)
              (ex_wrapped_initialised fmul) ltac:(lia)
              ltac:(vm_compute; reflexivity) ltac:(vm_compute; reflexivity))
    as (s_k & E & _).
  cbn [steps] in E. apply bind_Done_inv in E as ([] & s1 & E & _).
  by rewrite ex_wrapped_step in E.
Qed.

(** C4, amended: for an entry state[f][n] of an initialised bank, n below
    the neuron count, that holds v0, with d the decay of filter f: when the
    byte count n_neurons * sizeof(value_t) of a vector does not wrap
    (n_neurons < 2^30), k consecutive calls of step return, and whenever
    they return they leave in state[f][n] the value v0 multiplied by d k
    times with the fixed-point product; and when d lies between 0 and 1 and
    the product rounds down, that value is the real number v0 * d^k up to k
    units of 2^-15. *)
Theorem steps_multiply_k_times (fmul : Z -> Z -> Z) address n_neurons s f n v0 p k :
  initialised fmul address n_neurons s ->
  Z.of_nat n < n_neurons ->
  state_at s f n = Some v0 ->
  params_at s f = Some p ->
  (forall s_k,
     steps fmul k n_neurons s = Done tt s_k ->
     state_at s_k f n = Some (Nat.iter k (fun v => fmul v (filter p)) v0))
  /\ (vector_fits n_neurons ->
      exists s_k, steps fmul k n_neurons s = Done tt s_k)
  /\ (0 <= signed32 (filter p) <= 2 ^ 15 -> rounds_down fmul (filter p) ->
      forall s_k,
        steps fmul k n_neurons s = Done tt s_k ->
        exists x_k,
          state_at s_k f n = Some x_k
          /\ signed32 x_k * (2 ^ 15) ^ Z.of_nat k
             <= signed32 v0 * signed32 (filter p) ^ Z.of_nat k
          /\ signed32 v0 * signed32 (filter p) ^ Z.of_nat k
             <= (signed32 x_k + Z.of_nat k) * (2 ^ 15) ^ Z.of_nat k).
Proof.
  intros Hinit Hn Hv Hp.
  pose proof (initialised_ready fmul address n_neurons s Hinit) as R.
  pose proof (steps_Done_iterate fmul address n_neurons f n p Hn k s v0) as Hiter.
  split; [|split].
  - intros s_k. by apply Hiter.
  - intros Hfits. by apply (steps_return fmul address n_neurons Hfits).
  - intros Hd Hround s_k Hrun. eexists. split; [by apply Hiter|].
    by apply decay_tolerance.
Qed.

Lemma steps_multiply_k_times_witness :
  initialised accum_mul ex_address 3 ex_loaded
  /\ Z.of_nat 2 < 3
  /\ state_at ex_loaded 1 2 = Some 983040
  /\ params_at ex_loaded 1 = Some (FilterParameters 29491 3277)
  /\ (forall s_k,
        steps accum_mul 4 3 ex_loaded = Done tt s_k ->
        state_at s_k 1 2 = Some (Nat.iter 4 (fun v => accum_mul v 29491) 983040))
  /\ (vector_fits 3 -> exists s_k, steps accum_mul 4 3 ex_loaded = Done tt s_k)
  /\ (0 <= signed32 29491 <= 2 ^ 15 -> rounds_down accum_mul 29491 ->
      forall s_k,
        steps accum_mul 4 3 ex_loaded = Done tt s_k ->
        exists x_k,
          state_at s_k 1 2 = Some x_k
          /\ signed32 x_k * (2 ^ 15) ^ Z.of_nat 4
             <= signed32 983040 * signed32 29491 ^ Z.of_nat 4
          /\ signed32 983040 * signed32 29491 ^ Z.of_nat 4
             <= (signed32 x_k + Z.of_nat 4) * (2 ^ 15) ^ Z.of_nat 4).
Proof.
  assert (initialised accum_mul ex_address 3 ex_loaded) as Hinit
    by (exists ex_future, ex_injections, ex_initialised;
        split; vm_compute; reflexivity).
  assert (Z.of_nat 2 < 3) as Hn by lia.
  assert (state_at ex_loaded 1 2 = Some 983040) as Hv by (vm_compute; reflexivity).
  assert (params_at ex_loaded 1 = Some (FilterParameters 29491 3277)) as Hp
    by (vm_compute; reflexivity).
  split; [exact Hinit|]. split; [exact Hn|].
  split; [exact Hv|]. split; [exact Hp|].
  exact (steps_multiply_k_times accum_mul ex_address 3 ex_loaded 1 2 983040
           (FilterParameters 29491 3277) 4 Hinit Hn Hv Hp).
Defined.

(** Four steps with decay 0.9 take 30 to 644954 / 2^15, about 19.6824;
    the real number 30 * 0.9^4 is 19.683. *)
Example ex_four_steps :
  Nat.iter 4 (fun v => accum_mul v 29491) 983040 = 644954.
Proof. vm_compute. reflexivity. Qed.



(** One update on the worked bank: entry 1 of filter 0 goes from 20 to 10;
    its neighbour and the same neuron of the other filter stay. *)
Example ex_one_entry :
  exists s',
    decay_entry accum_mul 0 1 ex_loaded = Done tt s'
    /\ state_at s' 0 1 = Some 327680
    /\ state_at s' 0 0 = state_at ex_loaded 0 0
    /\ state_at s' 1 1 = state_at ex_loaded 1 1.
Proof. eexists. split; [vm_compute; reflexivity|]. by vm_compute. Qed.

(** C6: when word 0 of the configuration is 0, initialise returns true
    whatever the neuron count, asks the allocator for nothing, leaves both
    arrays null and the heap empty, and from then on every call of step, with
    any argument, returns and changes nothing. *)
Theorem no_filters_nothing_allocated (fmul : Z -> Z -> Z) (records : list Z)
    (n_neurons : Z) (fut : list bool) :
  exists s,
    filtered_activity_initialise (0 :: records) n_neurons (boot fut) = Done true s
    /\ g_num_activity_filters s = 0
    /\ g_filtered_activities s = NULL
    /\ g_activity_filter_params s = NULL
    /\ mem s = []
    /\ future s = fut
    /\ trace s = [EvNumFilters 0]
    /\ (forall n, filtered_activity_step fmul n s = Done tt s)
    /\ (forall ns, step_calls fmul ns s = Done tt s).
Proof.
  exists (log (EvNumFilters 0) (boot fut)).
  assert (forall n, filtered_activity_step fmul n (log (EvNumFilters 0) (boot fut))
                    = Done tt (log (EvNumFilters 0) (boot fut))) as Hstep
    by reflexivity.
  repeat split; try done.
  intros ns. induction ns as [|n ns IH]; [done|]. simpl.
  by rewrite (bind_Done _ _ _ _ _ (Hstep n)).
Qed.

(** C7: after initialise has returned true on a configuration with at least
    one filter, the stored record of every filter f below the filter count
    has, in both fields, the very words of the configuration region: filter
    is word 1 + 2f and n_filter is word 2 + 2f. *)
Theorem initialise_copies_parameters address n_neurons fut s f :
  0 < num_filters address ->
  filtered_activity_initialise address n_neurons (boot fut) = Done true s ->
  Z.of_nat f < num_filters address ->
  exists d nd,
    address !! (1 + 2 * f)%nat = Some d
    /\ address !! (2 + 2 * f)%nat = Some nd
    /\ params_at s f = Some (FilterParameters d nd).
Proof.
  intros Hpos Hinit Hf.
  apply (initialise_params_at address n_neurons fut s Hinit). lia.
Qed.

Lemma initialise_copies_parameters_witness :
  0 < num_filters ex_address
  /\ filtered_activity_initialise ex_address 3 (boot ex_future)
     = Done true ex_initialised
  /\ Z.of_nat 1 < num_filters ex_address
  /\ exists d nd,
       ex_address !! (1 + 2 * 1)%nat = Some d
       /\ ex_address !! (2 + 2 * 1)%nat = Some nd
       /\ params_at ex_initialised 1 = Some (FilterParameters d nd).
Proof.
  assert (0 < num_filters ex_address) as Hpos by (vm_compute; reflexivity).
  assert (filtered_activity_initialise ex_address 3 (boot ex_future)
          = Done true ex_initialised) as Hinit by (vm_compute; reflexivity).
  assert (Z.of_nat 1 < num_filters ex_address) as Hf by (vm_compute; reflexivity).
  split; [exact Hpos|]. split; [exact Hinit|]. split; [exact Hf|].
  exact (initialise_copies_parameters ex_address 3 ex_future ex_initialised 1
           Hpos Hinit Hf).
Defined.

(** C8 as stated fails, whatever the product of value_t: on the bank of
    one filter and 2^30 + 1 neurons the call of step with the neuron count
    of the ensemble writes beyond the one entry of the vector; no state
    comes out of it in which the parameters are known to be as they were. *)
Lemma step_frame_wraps :
  ~ (exists fmul : Z -> Z -> Z,
       forall address n_neurons s,
         0 <= n_neurons < 2 ^ 32 ->
         initialised fmul address n_neurons s ->
         exists s',
           filtered_activity_step fmul n_neurons s = Done tt s'
           /\ frame s s'
           /\ (forall f,
                 read_ptr s' (g_filtered_activities s') f
                 = read_ptr s (g_filtered_activities s) f)
           /\ (forall b, ~ vector_block s b -> mem s' !! b = mem s !! b)).
Proof.
  intros (fmul & H).
  destruct (H ex_one_filter (2 ^ 30 + 1) ex_wrapped ltac:(lia)
              (ex_wrapped_initialised fmul)) as (s' & E & _).
  by rewrite ex_wrapped_step in E.
Qed.

(** C8, amended: on an initialised bank, when there is no filter or the
    byte count n_neurons * sizeof(value_t) of a vector does not wrap
    (n_neurons < 2^30), the call of step with the neuron count of the
    ensemble returns; and every call of step that returns, with any
    argument, leaves the filter count, both array pointers and every
    parameter record as they were, asks the allocator for nothing,
    allocates no block and logs nothing, and writes into the state vectors
    only: the cells of the array of vectors are as they were, every block
    of the heap that is not a state vector has its contents unchanged, and
    neither the parameter array nor the array of vectors is a state
    vector. *)
Theorem step_keeps_parameters (fmul : Z -> Z -> Z) address n_neurons s :
  initialised fmul address n_neurons s ->
  (forall n s',
     filtered_activity_step fmul n s = Done tt s' ->
     frame s s'
     /\ (forall f,
           read_ptr s' (g_filtered_activities s') f
           = read_ptr s (g_filtered_activities s) f)
     /\ (forall b, ~ vector_block s b -> mem s' !! b = mem s !! b)
     /\ (forall b,
           g_activity_filter_params s = Some b \/ g_filtered_activities s = Some b ->
           ~ vector_block s b))
  /\ ((0 < num_filters address -> vector_fits n_neurons) ->
      exists s', filtered_activity_step fmul n_neurons s = Done tt s').
Proof.
  intros Hinit.
  pose proof (initialised_ready fmul address n_neurons s Hinit) as R.
  split.
  - intros n s' Hrun.
    destruct (step_Done_ready fmul address n_neurons s n s' R Hrun)
      as (_ & Fr & _).
    split; [exact Fr|].
    exact (step_Done_vectors fmul address n_neurons s n s' R Hrun).
  - intros Hfits.
    destruct (step_ready fmul address n_neurons s n_neurons R) as (s' & E & _).
    { intros Hpos. rewrite (vector_fits_cells n_neurons (Hfits Hpos)). lia. }
    by exists s'.
Qed.

Lemma step_keeps_parameters_witness :
  initialised accum_mul ex_address 3 ex_loaded
  /\ (forall n s',
        filtered_activity_step accum_mul n ex_loaded = Done tt s' ->
        frame ex_loaded s'
        /\ (forall f,
              read_ptr s' (g_filtered_activities s') f
              = read_ptr ex_loaded (g_filtered_activities ex_loaded) f)
        /\ (forall b, ~ vector_block ex_loaded b ->
              mem s' !! b = mem ex_loaded !! b)
        /\ (forall b,
              g_activity_filter_params ex_loaded = Some b
              \/ g_filtered_activities ex_loaded = Some b ->
              ~ vector_block ex_loaded b))
  /\ ((0 < num_filters ex_address -> vector_fits 3) ->
      exists s', filtered_activity_step accum_mul 3 ex_loaded = Done tt s').
Proof.
  assert (initialised accum_mul ex_address 3 ex_loaded) as Hinit
    by (exists ex_future, ex_injections, ex_initialised;
        split; vm_compute; reflexivity).
  split; [exact Hinit|].
  exact (step_keeps_parameters accum_mul ex_address 3 ex_loaded Hinit).
Defined.

(** C9: the n_filter (one minus decay) fields play no part in the update:
    two banks initialised from configurations with the same filter count and
    the same decay words, and arbitrary n_filter words, that go through the
    same calls of step and the same injections hold the same state entries;
    whenever the one run returns, so does the other. *)
Theorem step_ignores_n_filter (fmul : Z -> Z -> Z) address1 address2 n_neurons
    fut1 fut2 s1 s2 acts s1' :
  same_decays address1 address2 ->
  filtered_activity_initialise address1 n_neurons (boot fut1) = Done true s1 ->
  filtered_activity_initialise address2 n_neurons (boot fut2) = Done true s2 ->
  run fmul n_neurons acts s1 = Done tt s1' ->
  exists s2',
    run fmul n_neurons acts s2 = Done tt s2'
    /\ forall f n, state_at s1' f n = state_at s2' f n.
Proof.
  intros [Hcount Hdecay] Hinit1 Hinit2 Hrun.
  pose proof (initialise_ready _ _ _ _ Hinit1) as R1.
  pose proof (initialise_ready _ _ _ _ Hinit2) as R2.
  destruct (run_same fmul address1 address2 n_neurons Hcount acts s1 s2 s1' R1 R2)
    as (s2' & E & Hst & _); [|done|by exists s2'].
  split.
  - intros f i.
    rewrite (initialise_state_at _ _ _ _ Hinit1).
    rewrite (initialise_state_at _ _ _ _ Hinit2).
    by rewrite Hcount.
  - intros f.
    destruct (decide (Z.of_nat f < num_filters address1)) as [Hf|Hf].
    + destruct (initialise_params_at _ _ _ _ Hinit1 f) as (d1 & nd1 & Hd1 & _ & ->);
        [lia|].
      destruct (initialise_params_at _ _ _ _ Hinit2 f) as (d2 & nd2 & Hd2 & _ & ->);
        [lia|].
      simpl. rewrite (Hdecay f Hf) in Hd1. congruence.
    + rewrite (ready_params_none _ _ _ f R1 Hf).
      rewrite (ready_params_none _ _ _ f R2); [done|]. by rewrite <- Hcount.
Qed.

Lemma step_ignores_n_filter_witness :
  same_decays ex_address ex_address'
  /\ filtered_activity_initialise ex_address 3 (boot ex_future)
     = Done true ex_initialised
  /\ filtered_activity_initialise ex_address' 3 (boot ex_future)
     = Done true ex_initialised'
  /\ (exists s1',
        run accum_mul 3 (ex_injections ++ [Step; Step]) ex_initialised
        = Done tt s1'
        /\ exists s2',
             run accum_mul 3 (ex_injections ++ [Step; Step]) ex_initialised'
             = Done tt s2'
             /\ forall f n, state_at s1' f n = state_at s2' f n).
Proof.
  assert (same_decays ex_address ex_address') as Hsame.
  { split; [reflexivity|]. intros [|[|f]] Hf; try reflexivity.
    unfold num_filters, ex_address in Hf. simpl in Hf. lia. }
  assert (filtered_activity_initialise ex_address 3 (boot ex_future)
          = Done true ex_initialised) as Hinit by (vm_compute; reflexivity).
  assert (filtered_activity_initialise ex_address' 3 (boot ex_future)
          = Done true ex_initialised') as Hinit' by (vm_compute; reflexivity).
  split; [exact Hsame|]. split; [exact Hinit|]. split; [exact Hinit'|].
  eexists. split; [vm_compute; reflexivity|].
  apply (step_ignores_n_filter accum_mul ex_address ex_address' 3
           ex_future ex_future ex_initialised ex_initialised'
           (ex_injections ++ [Step; Step]) _ Hsame Hinit Hinit').
  vm_compute. reflexivity.
Defined.

(** C10: before any call of initialise, with the filter count 0 and both
    pointers null, a call of step with any argument returns without going
    through a pointer and leaves the whole state as it was: the loop over
    the filters has no iteration. *)
Theorem step_before_initialise (fmul : Z -> Z -> Z) (fut : list bool) (n : Z) :
  filtered_activity_step fmul n (boot fut) = Done tt (boot fut)
  /\ for_range 0 (Z.to_nat (g_num_activity_filters (boot fut)))
       (fun f => for_range 0 (Z.to_nat n) (fun i => decay_entry fmul f i))
     = ret tt.
Proof. split; reflexivity. Qed.

(** * Further properties of the two functions *)

(** X1: called in any state on a region that holds the records it
    announces, at least one, filtered_activity_initialise returns for every
    neuron count, and it returns true exactly when the allocator grants the
    next F + 2 requests: one for each of the two arrays and one for each of
    the F vectors. *)
Theorem initialise_true_iff_granted address n_neurons s0 :
  holds_records address -> 0 < num_filters address ->
  exists b s,
    filtered_activity_initialise address n_neurons s0 = Done b s
    /\ (b = true <->
        take (2 + Z.to_nat (num_filters address)) (future s0)
        = replicate (2 + Z.to_nat (num_filters address)) true).
Proof.
  intros Hholds Hpos.
  destruct (le_lt_dec (2 + Z.to_nat (num_filters address)) (grants (future s0)))
    as [Hg|Hg].
  - exists true. eexists. split; [by apply initialise_granted|].
    split; [intros _; by apply grants_take|done].
  - destruct (initialise_refused address n_neurons Hholds s0 Hpos Hg)
      as (s & E & _).
    exists false, s. split; [done|]. split; [done|].
    intros Ht. apply grants_take in Ht. lia.
Qed.

Lemma initialise_true_iff_granted_witness :
  holds_records ex_address /\ 0 < num_filters ex_address
  /\ exists b s,
       filtered_activity_initialise ex_address 3 (boot ex_short_future) = Done b s
       /\ (b = true <->
           take (2 + Z.to_nat (num_filters ex_address))
                (future (boot ex_short_future))
           = replicate (2 + Z.to_nat (num_filters ex_address)) true).
Proof.
  pose proof ex_address_holds as Hholds.
  assert (0 < num_filters ex_address) as Hpos by (vm_compute; reflexivity).
  split; [exact Hholds|]. split; [exact Hpos|].
  exact (initialise_true_iff_granted ex_address 3 (boot ex_short_future)
           Hholds Hpos).
Defined.

(** X2: filtered_activity_initialise stops at the first refusal and frees
    nothing.  With g the number of grants with which the answers of the
    allocator start, a call on a region with F > 0 records takes
    min (g + 1, F + 2) answers, leaves min (g, F + 2) new blocks behind the
    heap it found, whether it returns true or false, and leaves the blocks
    of that heap as they were. *)
Theorem initialise_frees_nothing address n_neurons s0 b s :
  holds_records address -> 0 < num_filters address ->
  filtered_activity_initialise address n_neurons s0 = Done b s ->
  future s
  = drop (Nat.min (S (grants (future s0))) (2 + Z.to_nat (num_filters address)))
         (future s0)
  /\ length (mem s)
     = (length (mem s0)
        + Nat.min (grants (future s0)) (2 + Z.to_nat (num_filters address)))%nat
  /\ take (length (mem s0)) (mem s) = mem s0.
Proof.
  intros Hholds Hpos E.
  destruct (le_lt_dec (2 + Z.to_nat (num_filters address)) (grants (future s0)))
    as [Hg|Hg].
  - rewrite (initialise_granted address n_neurons Hholds s0 Hpos Hg) in E.
    injection E as <- <-. unfold loop_state. proj.
    rewrite !Nat.min_r by lia. split; [done|]. split.
    + rewrite length_app. cbn [length]. rewrite length_replicate. lia.
    + apply take_app_length.
  - destruct (initialise_refused address n_neurons Hholds s0 Hpos Hg)
      as (s' & E' & _ & Hfut & Hcases).
    rewrite E' in E. injection E as <- <-.
    rewrite !Nat.min_l by lia. split; [done|].
    destruct Hcases as [(Hg0 & _ & Hm)|[(Hg1 & _ & Hm)|(i & c & tr & Hgi & _ & ->)]].
    + rewrite Hm, Hg0. split; [lia|]. apply firstn_all.
    + rewrite Hm, Hg1, length_app. cbn [length]. split; [lia|].
      apply take_app_length.
    + unfold loop_state. proj.
      rewrite length_app. cbn [length]. rewrite length_replicate.
      split; [lia|]. apply take_app_length.
Qed.

Lemma initialise_frees_nothing_witness :
  holds_records ex_address /\ 0 < num_filters ex_address
  /\ filtered_activity_initialise ex_address 3 (boot ex_short_future)
     = Done false ex_failed
  /\ future ex_failed
     = drop (Nat.min (S (grants (future (boot ex_short_future))))
                     (2 + Z.to_nat (num_filters ex_address)))
            (future (boot ex_short_future))
  /\ length (mem ex_failed)
     = (length (mem (boot ex_short_future))
        + Nat.min (grants (future (boot ex_short_future)))
                  (2 + Z.to_nat (num_filters ex_address)))%nat
  /\ take (length (mem (boot ex_short_future))) (mem ex_failed)
     = mem (boot ex_short_future).
Proof.
  pose proof ex_address_holds as Hholds.
  assert (0 < num_filters ex_address) as Hpos by (vm_compute; reflexivity).
  assert (filtered_activity_initialise ex_address 3 (boot ex_short_future)
          = Done false ex_failed) as E by (vm_compute; reflexivity).
  split; [exact Hholds|]. split; [exact Hpos|]. split; [exact E|].
  exact (initialise_frees_nothing ex_address 3 (boot ex_short_future)
           false ex_failed Hholds Hpos E).
Defined.

(** X3: the log of a call that returns true, on a region with F > 0
    records: the line with the filter count, the request for the parameter
    array (8 F bytes), the request for the array of vectors (4 F bytes), and
    then for each filter f = 0, ..., F - 1 in turn the line with the words
    1 + 2f and 2 + 2f of the region followed by the request for its vector;
    every request is answered with the next block of the heap. *)
Theorem initialise_log address n_neurons s0 s :
  holds_records address -> 0 < num_filters address ->
  filtered_activity_initialise address n_neurons s0 = Done true s ->
  rev (trace s) = rev (trace s0) ++ full_log address n_neurons (length (mem s0)).
Proof.
  intros Hholds Hpos E.
  destruct (initialise_Done_true address n_neurons Hholds s0 s Hpos E) as [_ ->].
  unfold loop_state. proj. by rewrite rev_app_distr, rev_involutive.
Qed.

Lemma initialise_log_witness :
  holds_records ex_address /\ 0 < num_filters ex_address
  /\ filtered_activity_initialise ex_address 3 (boot ex_future)
     = Done true ex_initialised
  /\ rev (trace ex_initialised)
     = rev (trace (boot ex_future))
       ++ full_log ex_address 3 (length (mem (boot ex_future))).
Proof.
  pose proof ex_address_holds as Hholds.
  assert (0 < num_filters ex_address) as Hpos by (vm_compute; reflexivity).
  assert (filtered_activity_initialise ex_address 3 (boot ex_future)
          = Done true ex_initialised) as E by (vm_compute; reflexivity).
  split; [exact Hholds|]. split; [exact Hpos|]. split; [exact E|].
  exact (initialise_log ex_address 3 (boot ex_future) ex_initialised Hholds Hpos E).
Defined.

(** X4: the heap after a call that returns true, on a region with F > 0
    records, whatever the state before: the heap found, then the parameter
    array with the 2 F words of the region after word 0, then the array of
    vectors whose cell f points to the block after it plus f, then F vectors
    of zeroes; the two globals point to the two arrays.  All blocks are new
    and distinct: no vector shares its block with another or with an
    array. *)
Theorem initialise_heap_layout address n_neurons s0 s :
  holds_records address -> 0 < num_filters address ->
  filtered_activity_initialise address n_neurons s0 = Done true s ->
  g_activity_filter_params s = Some (length (mem s0))
  /\ g_filtered_activities s = Some (length (mem s0) + 1)%nat
  /\ mem s
     = mem s0
       ++ word_cells (param_words address)
       :: ptr_cells (seq (length (mem s0) + 2) (Z.to_nat (num_filters address)))
       :: replicate (Z.to_nat (num_filters address))
                    (replicate (vector_cells n_neurons) (Vword 0)).
Proof.
  intros Hholds Hpos E.
  destruct (initialise_Done_true address n_neurons Hholds s0 s Hpos E) as [_ ->].
  unfold loop_state. proj. by rewrite app_nil_r.
Qed.

Lemma initialise_heap_layout_witness :
  holds_records ex_address /\ 0 < num_filters ex_address
  /\ filtered_activity_initialise ex_address 3 ex_reloaded = Done true ex_again
  /\ g_activity_filter_params ex_again = Some (length (mem ex_reloaded))
  /\ g_filtered_activities ex_again = Some (length (mem ex_reloaded) + 1)%nat
  /\ mem ex_again
     = mem ex_reloaded
       ++ word_cells (param_words ex_address)
       :: ptr_cells (seq (length (mem ex_reloaded) + 2)
                         (Z.to_nat (num_filters ex_address)))
       :: replicate (Z.to_nat (num_filters ex_address))
                    (replicate (vector_cells 3) (Vword 0)).
Proof.
  pose proof ex_address_holds as Hholds.
  assert (0 < num_filters ex_address) as Hpos by (vm_compute; reflexivity).
  assert (filtered_activity_initialise ex_address 3 ex_reloaded
          = Done true ex_again) as E by (vm_compute; reflexivity).
  split; [exact Hholds|]. split; [exact Hpos|]. split; [exact E|].
  exact (initialise_heap_layout ex_address 3 ex_reloaded ex_again Hholds Hpos E).
Defined.

(** X5: after a call of filtered_activity_initialise that returned false,
    the filter count is set but an array or a vector is missing: every call
    of filtered_activity_step with an argument above 0 goes through a null
    pointer and is undefined.  The return value has to be checked. *)
Theorem step_after_failed_initialise (fmul : Z -> Z -> Z) address n_neurons
    s0 s n :
  holds_records address ->
  filtered_activity_initialise address n_neurons s0 = Done false s ->
  0 < n ->
  filtered_activity_step fmul n s = Undefined.
Proof.
  intros Hholds E Hn.
  destruct (initialise_Done_false address n_neurons Hholds s0 s E) as [Hpos Hg].
  destruct (initialise_refused address n_neurons Hholds s0 Hpos Hg)
    as (s' & E' & Hnum & _ & Hcases).
  rewrite E' in E. injection E as <-.
  destruct Hcases as [(_ & Hp & _)|[(_ & Ha & _)|(i & c & tr & _ & Hic & ->)]].
  - apply step_Undefined
      with (P := fun s1 => g_activity_filter_params s1 = NULL) (j := 0%nat);
      [done|rewrite Hnum; lia|done| |].
    + intros f i s1 s2 HP Ed. by rewrite decay_entry_no_params in Ed.
    + intros s1 HP. by apply decay_entry_no_params.
  - apply step_Undefined
      with (P := fun s1 => g_filtered_activities s1 = NULL) (j := 0%nat);
      [done|rewrite Hnum; lia|done| |].
    + intros f i s1 s2 HP Ed. by rewrite decay_entry_no_acts in Ed.
    + intros s1 HP. by apply decay_entry_no_acts.
  - apply step_Undefined
      with (P := null_row (length (mem s0) + 1) (seq (length (mem s0) + 2) i) c)
           (j := i).
    + done.
    + unfold loop_state. proj. lia.
    + split; [done|]. unfold loop_state. proj. apply heap_lookup_acts.
    + intros f i1 s1 s2 HP Ed.
      eapply decay_entry_null_row; [|exact HP|exact Ed].
      rewrite elem_of_seq. lia.
    + intros s1 HP.
      pose proof (decay_entry_at_null_row fmul _ _ _ 0 s1 HP) as Hu.
      by rewrite length_seq in Hu.
Qed.

Lemma step_after_failed_initialise_witness :
  holds_records ex_address
  /\ filtered_activity_initialise ex_address 3 (boot ex_short_future)
     = Done false ex_failed
  /\ 0 < 3
  /\ filtered_activity_step accum_mul 3 ex_failed = Undefined.
Proof.
  pose proof ex_address_holds as Hholds.
  assert (filtered_activity_initialise ex_address 3 (boot ex_short_future)
          = Done false ex_failed) as E by (vm_compute; reflexivity).
  assert (0 < 3) as Hn by lia.
  split; [exact Hholds|]. split; [exact E|]. split; [exact Hn|].
  exact (step_after_failed_initialise accum_mul ex_address 3
           (boot ex_short_future) ex_failed 3 Hholds E Hn).
Defined.

(** X6: on an initialised bank with at least one filter, a call of
    filtered_activity_step returns exactly when its argument is at most the
    number of entries that were allocated for a vector; with a larger
    argument the call reads beyond a vector and is undefined. *)
Theorem step_returns_iff_in_bounds (fmul : Z -> Z -> Z) address n_neurons s n :
  initialised fmul address n_neurons s -> 0 < num_filters address ->
  (exists s', filtered_activity_step fmul n s = Done tt s')
  <-> (Z.to_nat n <= vector_cells n_neurons)%nat.
Proof.
  intros Hinit Hpos.
  pose proof (initialised_ready fmul address n_neurons s Hinit) as R.
  split.
  - intros [s' E]. by eapply step_Done_bound.
  - intros Hn.
    destruct (step_ready fmul address n_neurons s n R) as (s' & E & _); [done|].
    by exists s'.
Qed.

Lemma step_returns_iff_in_bounds_witness :
  initialised accum_mul ex_address 3 ex_loaded /\ 0 < num_filters ex_address
  /\ ((exists s', filtered_activity_step accum_mul 4 ex_loaded = Done tt s')
      <-> (Z.to_nat 4 <= vector_cells 3)%nat).
Proof.
  assert (initialised accum_mul ex_address 3 ex_loaded) as Hinit
    by (exists ex_future, ex_injections, ex_initialised;
        split; vm_compute; reflexivity).
  assert (0 < num_filters ex_address) as Hpos by (vm_compute; reflexivity).
  split; [exact Hinit|]. split; [exact Hpos|].
  exact (step_returns_iff_in_bounds accum_mul ex_address 3 ex_loaded 4 Hinit Hpos).
Defined.

(** X7: the extent of the state after a call at program start that
    returned true, for every neuron count, also one whose byte count wraps:
    state[f][n] exists, and is zero, exactly for f below the filter count
    and n below the number of 32-bit cells of the wrapped byte count
    n_neurons * sizeof(value_t); every other entry is outside the bank. *)
Theorem initialise_state_extent address n_neurons fut s f n :
  filtered_activity_initialise address n_neurons (boot fut) = Done true s ->
  state_at s f n
  = if decide (f < Z.to_nat (num_filters address)
               /\ n < cells_of (wrap32 (n_neurons * sizeof_value_t)))%nat
    then Some 0 else None.
Proof.
  intros Hinit. exact (initialise_state_at address n_neurons fut s Hinit f n).
Qed.

Lemma initialise_state_extent_witness :
  filtered_activity_initialise ex_one_filter (2 ^ 30 + 1) (boot [true; true; true])
  = Done true ex_wrapped
  /\ state_at ex_wrapped 0 1
     = if decide (0 < Z.to_nat (num_filters ex_one_filter)
                  /\ 1 < cells_of (wrap32 ((2 ^ 30 + 1) * sizeof_value_t)))%nat
       then Some 0 else None.
Proof.
  assert (filtered_activity_initialise ex_one_filter (2 ^ 30 + 1)
            (boot [true; true; true])
          = Done true ex_wrapped) as E by (vm_compute; reflexivity).
  split; [exact E|].
  exact (initialise_state_extent ex_one_filter (2 ^ 30 + 1)
           [true; true; true] ex_wrapped 0 1 E).
Defined.

(** X8: a bank of zeroes stays a bank of zeroes.  When the product of the
    word 0 with any decay is 0, calls of filtered_activity_step after a
    successful initialise at program start, in any number and with any
    arguments, leave every entry of the state as initialise left it; and
    the calls return when no argument exceeds the number of entries
    allocated for a vector. *)
Theorem step_keeps_zero (fmul : Z -> Z -> Z) address n_neurons fut s :
  (forall d, fmul 0 d = 0) ->
  filtered_activity_initialise address n_neurons (boot fut) = Done true s ->
  (forall ns s',
     step_calls fmul ns s = Done tt s' ->
     forall f i, state_at s' f i = state_at s f i)
  /\ (forall ns,
        Forall (fun n => (Z.to_nat n <= vector_cells n_neurons)%nat) ns ->
        exists s', step_calls fmul ns s = Done tt s').
Proof.
  intros Hzero Hinit.
  pose proof (initialise_ready address n_neurons fut s Hinit) as R.
  split.
  - intros ns s' Hrun.
    by apply (step_calls_zero fmul address n_neurons fut s Hzero Hinit ns s s' R).
  - intros ns Hns. by apply (step_calls_return fmul address n_neurons ns s R).
Qed.

Lemma step_keeps_zero_witness :
  (forall d, accum_mul 0 d = 0)
  /\ filtered_activity_initialise ex_address 3 (boot ex_future)
     = Done true ex_initialised
  /\ (forall ns s',
        step_calls accum_mul ns ex_initialised = Done tt s' ->
        forall f i, state_at s' f i = state_at ex_initialised f i)
  /\ (forall ns,
        Forall (fun n => (Z.to_nat n <= vector_cells 3)%nat) ns ->
        exists s', step_calls accum_mul ns ex_initialised = Done tt s').
Proof.
  assert (forall d, accum_mul 0 d = 0) as Hzero by (intros d; reflexivity).
  assert (filtered_activity_initialise ex_address 3 (boot ex_future)
          = Done true ex_initialised) as E by (vm_compute; reflexivity).
  split; [exact Hzero|]. split; [exact E|].
  exact (step_keeps_zero accum_mul ex_address 3 ex_future ex_initialised Hzero E).
Defined.

(** X9: a second call of filtered_activity_initialise.  A call in any
    state, also on a bank that is in use, that returns true makes a new
    bank behind the heap it found: a call of filtered_activity_step with an
    argument within the vectors then returns and decays the entries of the
    new bank, and every block of the old heap, the old vectors among them,
    is still there with its contents: the old bank is neither freed nor
    reused. *)
Theorem initialise_again_then_step (fmul : Z -> Z -> Z) address n_neurons
    s0 s n :
  holds_records address -> 0 < num_filters address ->
  filtered_activity_initialise address n_neurons s0 = Done true s ->
  (Z.to_nat n <= vector_cells n_neurons)%nat ->
  exists s',
    filtered_activity_step fmul n s = Done tt s'
    /\ (forall b, (b < length (mem s0))%nat -> mem s' !! b = mem s0 !! b)
    /\ (forall f i, state_at s' f i = decayed fmul (Z.to_nat n) s f i).
Proof.
  intros Hholds Hpos E Hn.
  destruct (initialise_Done_true address n_neurons Hholds s0 s Hpos E) as [_ ->].
  match goal with |- context [loop_state _ _ _ _ _ ?fut ?tr] =>
    pose proof (loop_state_bank address n_neurons Hholds (mem s0) fut tr) as B
  end.
  destruct (step_bank fmul _ _ n B) as (s' & Es & B' & Hsame).
  { intros j v Hv. apply lookup_replicate in Hv as [-> _].
    by rewrite length_replicate. }
  exists s'. split; [exact Es|]. split.
  - intros b Hb. destruct Hsame as (_ & _ & _ & _ & _ & _ & Hm).
    rewrite Hm by (rewrite elem_of_seq; lia).
    unfold loop_state. proj. by rewrite lookup_app_l.
  - intros f i. rewrite (bank_state_at B').
    apply (bank_decayed fmul _ _ _ _ _ _ _ _ _ B).
Qed.

Lemma initialise_again_then_step_witness :
  holds_records ex_address /\ 0 < num_filters ex_address
  /\ filtered_activity_initialise ex_address 3 ex_reloaded = Done true ex_again
  /\ (Z.to_nat 3 <= vector_cells 3)%nat
  /\ exists s',
       filtered_activity_step accum_mul 3 ex_again = Done tt s'
       /\ (forall b, (b < length (mem ex_reloaded))%nat ->
             mem s' !! b = mem ex_reloaded !! b)
       /\ (forall f i,
             state_at s' f i = decayed accum_mul (Z.to_nat 3) ex_again f i).
Proof.
  pose proof ex_address_holds as Hholds.
  assert (0 < num_filters ex_address) as Hpos by (vm_compute; reflexivity).
  assert (filtered_activity_initialise ex_address 3 ex_reloaded
          = Done true ex_again) as E by (vm_compute; reflexivity).
  assert (Z.to_nat 3 <= vector_cells 3)%nat as Hn by (vm_compute; lia).
  split; [exact Hholds|]. split; [exact Hpos|]. split; [exact E|].
  split; [exact Hn|].
  exact (initialise_again_then_step accum_mul ex_address 3 ex_reloaded ex_again 3
           Hholds Hpos E Hn).
Defined.

(** X10: a call at program start returns true, with at least one filter,
    only when the region really holds the records that word 0 announces and
    the byte count of the parameter array, F * 8 computed in 32 bits, did
    not wrap.  On a shorter region, or with a count of 2^29 or more, the
    call fails or reads outside the region or outside the parameter array;
    it never reports success. *)
Theorem initialise_true_needs_records address n_neurons fut s :
  0 < num_filters address ->
  filtered_activity_initialise address n_neurons (boot fut) = Done true s ->
  1 + 2 * num_filters address <= Z.of_nat (length address)
  /\ num_filters address * sizeof_activity_filter_parameters_t < 2 ^ 32.
Proof.
  intros Hpos Hinit.
  by destruct (initialise_true_holds address n_neurons fut s Hinit Hpos)
    as (_ & _ & Hlen & Hbytes).
Qed.

Lemma initialise_true_needs_records_witness :
  0 < num_filters ex_address
  /\ filtered_activity_initialise ex_address 3 (boot ex_future)
     = Done true ex_initialised
  /\ 1 + 2 * num_filters ex_address <= Z.of_nat (length ex_address)
  /\ num_filters ex_address * sizeof_activity_filter_parameters_t < 2 ^ 32.
Proof.
  assert (0 < num_filters ex_address) as Hpos by (vm_compute; reflexivity).
  assert (filtered_activity_initialise ex_address 3 (boot ex_future)
          = Done true ex_initialised) as E by (vm_compute; reflexivity).
  split; [exact Hpos|]. split; [exact E|].
  exact (initialise_true_needs_records ex_address 3 ex_future ex_initialised
           Hpos E).
Defined.
